(** * ida_settings: scoped key-value settings for IDAPython plugins

    A shallow embedding of [ida_settings.py].  The module keeps settings
    under a plugin name in four places: the system-wide and the per-user
    QSettings locations, an ini file next to the open IDB, and a netnode
    of the open IDB.  Every method is a function in a state-and-exception
    monad over a [World] that holds what those four places persist. *)

From Stdlib Require Import String Ascii List Bool Arith Lia.
From stdpp Require Import base option list gmap strings fin_maps.

Local Open Scope string_scope.

(** ** Python values and exceptions *)

(** A settings value is [bytes] (a Python 2 [str]); [None] is the only
    other object the module itself ever passes around as a value. *)
Inductive pyval : Type :=
  | PyNone
  | PyBytes (b : string).

#[global] Instance pyval_eq_dec : EqDecision pyval.
Proof. solve_decision. Defined.

Definition is_None (v : pyval) : bool :=
  match v with PyNone => true | PyBytes _ => false end.

(** The exception classes that can leave the module's functions.
    [NameError] carries the name that is not bound. *)
Inductive exn : Type :=
  | KeyError (msg : string)
  | TypeError (msg : string)
  | RuntimeError (msg : string)
  | NameError (name : string).

Inductive result (A : Type) : Type :=
  | Ok (a : A)
  | Raise (e : exn).
Arguments Ok {A} a.
Arguments Raise {A} e.

Definition is_KeyError (e : exn) : bool :=
  match e with KeyError _ => true | _ => false end.

(** ** The namespace validator

    [FILENAME_RE = re.compile("[A-Za-z0-9 \-\.]+$")] and
    [validate(s) = FILENAME_RE.match(s) != None]. *)

Definition in_range (lo hi : nat) (c : ascii) : bool :=
  (lo <=? nat_of_ascii c)%nat && (nat_of_ascii c <=? hi)%nat.

(** The character class [[A-Za-z0-9 \-\.]]. *)
Definition filename_class (c : ascii) : bool :=
  in_range 65 90 c || in_range 97 122 c || in_range 48 57 c
  || Ascii.eqb c " " || Ascii.eqb c "-" || Ascii.eqb c ".".

(** Python's [$] without [re.MULTILINE]: the end of the string, or just
    before a newline that is the last character of the string. *)
Definition at_dollar (rest : string) : bool :=
  match rest with
  | EmptyString => true
  | String c EmptyString => Ascii.eqb c "010"
  | String _ (String _ _) => false
  end.

(** [pattern.match(s)]: a match anchored at the start of [s].  The greedy
    [+] takes a further class character first and gives it back when the
    rest fails.  The result is the matched text, [None] for no match. *)
Fixpoint FILENAME_RE_match (s : string) : option string :=
  match s with
  | EmptyString => None
  | String c r =>
      if filename_class c then
        match FILENAME_RE_match r with
        | Some m => Some (String c m)
        | None => if at_dollar r then Some (String c EmptyString) else None
        end
      else None
  end.

Definition validate (s : string) : bool :=
  match FILENAME_RE_match s with Some _ => true | None => false end.

(** What the comment above [FILENAME_RE] describes: one or more
    characters, each alphanumeric, a space, a dash or a period. *)
Fixpoint all_filename_class (s : string) : bool :=
  match s with
  | EmptyString => true
  | String c r => filename_class c && all_filename_class r
  end.

Definition filename_policy (s : string) : bool :=
  match s with
  | EmptyString => false
  | String _ _ => all_filename_class s
  end.

(** ** The world outside the module *)

(** Modelled from the spec: the hierarchical settings backend (Qt's
    QSettings) is not part of the repository.  One location persists a
    map from full keys to values; inside a group the full key of [k] is
    [group/k]. *)
Abbreviation qstore := (gmap string pyval).

(** Modelled from the spec: the document store (IDA's netnodes) is not
    part of the repository.  A netnode keeps its hash values under string
    keys, enumerated in insertion order. *)
Abbreviation hashvals := (list (string * pyval)).

Record World : Type := mkWorld {
  system_scope : qstore;             (* QSettings.SystemScope *)
  user_scope : qstore;               (* QSettings.UserScope *)
  ini_files : gmap string qstore;    (* ini files, by path *)
  idb_path : string;                 (* idc.GetIdbPath() *)
  netnodes : gmap string hashvals    (* netnodes of the open IDB, by name *)
}.

(** ** State and exceptions

    A computation reads and updates the world and either returns or
    raises; what it wrote before raising stays written. *)
Definition M (A : Type) : Type := World -> result A * World.

Definition ret {A} (a : A) : M A := fun w => (Ok a, w).

Definition bind {A B} (m : M A) (k : A -> M B) : M B :=
  fun w =>
    match m w with
    | (Ok a, w') => k a w'
    | (Raise e, w') => (Raise e, w')
    end.

Definition raise {A} (e : exn) : M A := fun w => (Raise e, w).

(** [try: body  except KeyError: handler] *)
Definition try_except_KeyError {A} (body handler : M A) : M A :=
  fun w =>
    match body w with
    | (Ok a, w') => (Ok a, w')
    | (Raise e, w') => if is_KeyError e then handler w' else (Raise e, w')
    end.

Definition get_world : M World := fun w => (Ok w, w).

Declare Scope py_scope.
Delimit Scope py_scope with py.
Notation "'let*' x ':=' m 'in' k" := (bind m (fun x => k))
  (at level 10, x name, m at level 100, k at level 200) : py_scope.
Local Open Scope py_scope.

(** The names the module binds at top level: its imports, functions,
    classes and constants.  [get_current_plugin_names] is not among them
    (the function defined is [get_netnode_plugin_names]), nor is [json]
    (never imported), nor [Default] (the parameter of [get] is
    [default]); none of the three is a builtin. *)
Definition module_globals : list string :=
  [ "os"; "re"; "abc"; "unittest"; "contextlib"; "idc"; "idaapi"; "QtCore";
    "IDASettingsInterface"; "FILENAME_RE"; "validate"; "IDASettingsBase";
    "DictMixin"; "IDA_SETTINGS_ORGANIZATION"; "IDA_SETTINGS_APPLICATION";
    "get_qsettings"; "SystemIDASettings"; "UserIDASettings";
    "get_current_directory_config_path"; "DirectoryIDASettings";
    "get_meta_netnode"; "PLUGIN_NAMES_KEY"; "get_netnode_plugin_names";
    "add_netnode_plugin_name"; "IDBIDASettings"; "IDASettings";
    "import_settings"; "export_settings"; "PLUGIN_1"; "PLUGIN_2"; "KEY_1";
    "KEY_2"; "VALUE_1"; "VALUE_2"; "TestSync"; "clearing";
    "TestSettingsMixin"; "TestSystemSettings"; "TestUserSettings";
    "TestDirectorySettings"; "TestIdbSettings"; "TestUserAndSystemSettings";
    "main" ].

Definition is_bound (name : string) : bool :=
  existsb (String.eqb name) module_globals.

(** Evaluating a name that is not bound raises NameError; the statement
    it stands in goes no further. *)
Definition unbound {A} (name : string) : M A := raise (NameError name).

(** *** os.path, on a POSIX host (posixpath) *)

Definition is_slash (c : ascii) : bool := Ascii.eqb c "/".

(** [p[:p.rfind('/') + 1]] *)
Fixpoint upto_last_slash (p : string) : string :=
  match p with
  | EmptyString => EmptyString
  | String c r =>
      match upto_last_slash r with
      | EmptyString => if is_slash c then String c EmptyString else EmptyString
      | h => String c h
      end
  end.

Fixpoint all_slashes (s : string) : bool :=
  match s with
  | EmptyString => true
  | String c r => is_slash c && all_slashes r
  end.

(** [s.rstrip('/')] *)
Fixpoint rstrip_slashes (s : string) : string :=
  match s with
  | EmptyString => EmptyString
  | String c r =>
      match rstrip_slashes r with
      | EmptyString => if is_slash c then EmptyString else String c EmptyString
      | r' => String c r'
      end
  end.

Definition os_path_dirname (p : string) : string :=
  let head := upto_last_slash p in
  if negb (String.eqb head EmptyString) && negb (all_slashes head)
  then rstrip_slashes head else head.

Fixpoint ends_with_slash (s : string) : bool :=
  match s with
  | EmptyString => false
  | String c EmptyString => is_slash c
  | String _ r => ends_with_slash r
  end.

Definition os_path_join (a b : string) : string :=
  match b with
  | String c _ =>
      if is_slash c then b
      else if String.eqb a EmptyString || ends_with_slash a then a +:+ b
      else a +:+ "/" +:+ b
  | EmptyString =>
      if String.eqb a EmptyString || ends_with_slash a then a
      else a +:+ "/"
  end.

(** *** QSettings

    Modelled from the spec: [open(scope_selector, group) -> handle] with
    [get], [set], [remove], [allKeys] and [childGroups], each on the
    handle's own location.  The one exception is the one the module
    records, in [test_system_fallback] and in the comment of
    [UserIDASettings.get_value]: on a handle of user scope, [value] for a
    key the user location does not have reads on in the system location. *)
Module QSettings.

Inductive location : Type :=
  | SystemScope
  | UserScope
  | IniFile (path : string).

Record t : Type := mk { loc : location; group : option string }.

(** [beginGroup(group)] *)
Definition beginGroup (s : t) (g : string) : t :=
  {| loc := loc s; group := Some g |}.

Definition prefix (s : t) : string :=
  match group s with
  | Some g => g +:+ "/"
  | None => EmptyString
  end.

Definition full_key (s : t) (key : string) : string := prefix s +:+ key.

(** The store a handle writes to. *)
Definition primary (l : location) (w : World) : qstore :=
  match l with
  | SystemScope => system_scope w
  | UserScope => user_scope w
  | IniFile path => default ∅ (ini_files w !! path)
  end.

(** The stores [value] goes on to, in order. *)
Definition fallbacks (l : location) (w : World) : list qstore :=
  match l with
  | UserScope => [system_scope w]
  | SystemScope | IniFile _ => []
  end.

Fixpoint find_first (k : string) (stores : list qstore) : option pyval :=
  match stores with
  | [] => None
  | m :: rest =>
      match m !! k with
      | Some v => Some v
      | None => find_first k rest
      end
  end.

(** [value(key)]: [None] when no location has the key. *)
Definition value (s : t) (key : string) : M pyval :=
  fun w =>
    (Ok (default PyNone
           (find_first (full_key s key) (primary (loc s) w :: fallbacks (loc s) w))),
     w).

Definition update_primary (l : location) (f : qstore -> qstore) (w : World)
  : World :=
  match l with
  | SystemScope =>
      mkWorld (f (system_scope w)) (user_scope w) (ini_files w)
              (idb_path w) (netnodes w)
  | UserScope =>
      mkWorld (system_scope w) (f (user_scope w)) (ini_files w)
              (idb_path w) (netnodes w)
  | IniFile path =>
      mkWorld (system_scope w) (user_scope w)
              (<[path := f (primary l w)]> (ini_files w))
              (idb_path w) (netnodes w)
  end.

(** [setValue(key, value)] *)
Definition setValue (s : t) (key : string) (v : pyval) : M unit :=
  fun w => (Ok tt, update_primary (loc s) (<[full_key s key := v]>) w).

(** [remove(key)]: nothing to do when the location has no such key. *)
Definition remove (s : t) (key : string) : M unit :=
  fun w =>
    match primary (loc s) w !! full_key s key with
    | Some _ => (Ok tt, update_primary (loc s) (delete (full_key s key)) w)
    | None => (Ok tt, w)
    end.

(** [Some rest] when [s = p ++ rest]. *)
Fixpoint strip_prefix (p s : string) : option string :=
  match p, s with
  | EmptyString, _ => Some s
  | String a p', String b s' =>
      if Ascii.eqb a b then strip_prefix p' s' else None
  | String _ _, EmptyString => None
  end.

(** [allKeys()]: the keys below the handle's group, without the group
    prefix, each once; the order is the backend's. *)
Definition allKeys (s : t) : M (list string) :=
  fun w =>
    (Ok (omap (strip_prefix (prefix s)) (elements (dom (primary (loc s) w)))),
     w).

(** The part of [k] before its first slash, when it has one. *)
Fixpoint first_component (k : string) : option string :=
  match k with
  | EmptyString => None
  | String c r =>
      if is_slash c then Some EmptyString
      else String c <$> first_component r
  end.

(** [childGroups()] *)
Definition childGroups (s : t) : M (list string) :=
  fun w =>
    (Ok (remove_dups
           (omap first_component
              (omap (strip_prefix (prefix s))
                    (elements (dom (primary (loc s) w)))))),
     w).

End QSettings.

(** *** idaapi.netnode

    Modelled from the spec: [open(node_name, create=true) -> handle] with
    [hashval], [hashset], [hashdel] and the ordered enumeration
    [hash1st] / [hashnxt]. *)
Module netnode.

(** A handle names its node. *)
Definition t : Type := string.

Definition with_netnodes (f : gmap string hashvals -> gmap string hashvals)
                         (w : World) : World :=
  mkWorld (system_scope w) (user_scope w) (ini_files w) (idb_path w)
          (f (netnodes w)).

(** [idaapi.netnode(name, 0, True)]: opens the node, creating it when
    the IDB has none of that name. *)
Definition open (name : string) : M t :=
  fun w =>
    match netnodes w !! name with
    | Some _ => (Ok name, w)
    | None => (Ok name, with_netnodes (<[name := []]>) w)
    end.

Definition contents (n : t) (w : World) : hashvals :=
  default [] (netnodes w !! n).

Fixpoint assoc (key : string) (h : hashvals) : option pyval :=
  match h with
  | [] => None
  | (k, v) :: rest => if String.eqb k key then Some v else assoc key rest
  end.

(** Replaces the value in place, or appends a new key. *)
Fixpoint assoc_set (key : string) (v : pyval) (h : hashvals) : hashvals :=
  match h with
  | [] => [(key, v)]
  | (k, v') :: rest =>
      if String.eqb k key then (k, v) :: rest
      else (k, v') :: assoc_set key v rest
  end.

Fixpoint assoc_del (key : string) (h : hashvals) : hashvals :=
  match h with
  | [] => []
  | (k, v) :: rest =>
      if String.eqb k key then rest else (k, v) :: assoc_del key rest
  end.

(** [hashval(key)]: [None] when the node has no such key. *)
Definition hashval (n : t) (key : string) : M pyval :=
  fun w => (Ok (default PyNone (assoc key (contents n w))), w).

(** [hashset(key, value)] *)
Definition hashset (n : t) (key : string) (v : pyval) : M unit :=
  fun w => (Ok tt, with_netnodes (<[n := assoc_set key v (contents n w)]>) w).

(** [hashdel(key)] *)
Definition hashdel (n : t) (key : string) : M unit :=
  fun w => (Ok tt, with_netnodes (<[n := assoc_del key (contents n w)]>) w).

(** [hash1st()]: the first key; [None] stands for the value that ends
    the enumeration ([BADNODE] or [None]). *)
Definition hash1st (n : t) : M (option string) :=
  fun w => (Ok (fst <$> head (contents n w)), w).

Fixpoint key_after (key : string) (h : hashvals) : option string :=
  match h with
  | [] => None
  | (k, _) :: rest =>
      if String.eqb k key then fst <$> head rest else key_after key rest
  end.

(** [hashnxt(key)] *)
Definition hashnxt (n : t) (key : string) : M (option string) :=
  fun w => (Ok (key_after key (contents n w)), w).

End netnode.

(** ** The settings providers *)

(** A generator object: the frame of the suspended function and the code
    that resumes it.  [resume] gives the next yielded key, or [None] when
    the function returns (StopIteration). *)
Record generator (F : Type) : Type := mkGenerator {
  frame : F;
  resume : F -> M (option string * F)
}.
Arguments mkGenerator {F} frame resume.
Arguments frame {F} g.
Arguments resume {F} g f.

Definition next {F} (g : generator F) : M (option string * generator F) :=
  let* r := resume g (frame g) in
  ret (fst r, mkGenerator (snd r) (resume g)).

(** [list(g)], with a bound on the number of keys taken: [None] when the
    generator has not finished within [fuel] steps. *)
Fixpoint py_list {F} (fuel : nat) (g : generator F) : M (option (list string)) :=
  match fuel with
  | O => ret None
  | S fuel' =>
      let* r := next g in
      match fst r with
      | None => ret (Some [])
      | Some k =>
          let* rest := py_list fuel' (snd r) in
          ret (cons k <$> rest)
      end
  end.

(** A generator object that yields values of any type [A]. *)
Record iterator (A F : Type) : Type := mkIterator {
  it_frame : F;
  it_resume : F -> M (option A * F)
}.
Arguments mkIterator {A F} it_frame it_resume.
Arguments it_frame {A F} i.
Arguments it_resume {A F} i f.

Definition it_next {A F} (i : iterator A F) : M (option A * iterator A F) :=
  let* r := it_resume i (it_frame i) in
  ret (fst r, mkIterator (snd r) (it_resume i)).

(** [[x for x in i]], with a bound on the number of items taken. *)
Fixpoint py_list_of {A F} (fuel : nat) (i : iterator A F)
  : M (option (list A)) :=
  match fuel with
  | O => ret None
  | S fuel' =>
      let* r := it_next i in
      match fst r with
      | None => ret (Some [])
      | Some x =>
          let* rest := py_list_of fuel' (snd r) in
          ret (cons x <$> rest)
      end
  end.

(** [IDASettingsInterface]: the methods required of a settings provider. *)
Class IDASettingsInterface (S : Type) : Type := {
  get_value : S -> string -> M pyval;
  set_value : S -> string -> pyval -> M unit;
  del_value : S -> string -> M unit;
  keys_frame : Type;
  get_keys : S -> generator keys_frame
}.

Module IDASettingsBase.

(** [__init__(self, plugin_name)], for a class whose only attribute is
    [_plugin_name]. *)
Definition __init__ {S} (mk : string -> S) (plugin_name : string) : M S :=
  if negb (validate plugin_name)
  then raise (RuntimeError "invalid plugin name")
  else ret (mk plugin_name).

End IDASettingsBase.

(** [DictMixin]: dictionary syntax over the four methods.  Keys are
    strings here, so the [isinstance(key, basestring)] tests pass. *)
Module DictMixin.
Section DictMixin.
Context {S : Type} `{IDASettingsInterface S}.

Definition __getitem__ (self : S) (key : string) : M pyval :=
  get_value self key.

Definition __setitem__ (self : S) (key : string) (value : pyval) : M unit :=
  match value with
  | PyNone => raise (TypeError "value must be a bytes")
  | PyBytes _ => set_value self key value
  end.


(** [except KeyError: return Default]: the parameter is [default];
    [Default] is not bound. *)
Definition get (self : S) (key : string) (default : pyval) : M pyval :=
  try_except_KeyError (__getitem__ self key) (unbound "Default").

Definition __contains__ (self : S) (key : string) : M bool :=
  try_except_KeyError
    (let* v := __getitem__ self key in
     if negb (is_None v) then ret true else ret false)
    (ret false).

Definition iterkeys (self : S) : generator keys_frame := get_keys self.

(** [[k for k in self.iterkeys()]] *)
Definition keys (fuel : nat) (self : S) : M (option (list string)) :=
  py_list fuel (iterkeys self).

(** [for k in self.iterkeys(): yield self[k]]: the frame is the
    generator of keys the loop runs over. *)
Definition itervalues (self : S) : iterator pyval keys_frame :=
  mkIterator (frame (iterkeys self))
    (fun f =>
       let* r := resume (iterkeys self) f in
       match fst r with
       | None => ret (None, snd r)
       | Some k => let* v := __getitem__ self k in ret (Some v, snd r)
       end).

(** [[v for v in self.itervalues()]] *)
Definition values (fuel : nat) (self : S) : M (option (list pyval)) :=
  py_list_of fuel (itervalues self).

(** [for k in self.iterkeys(): yield k, self[k]] *)
Definition iteritems (self : S) : iterator (string * pyval) keys_frame :=
  mkIterator (frame (iterkeys self))
    (fun f =>
       let* r := resume (iterkeys self) f in
       match fst r with
       | None => ret (None, snd r)
       | Some k => let* v := __getitem__ self k in ret (Some (k, v), snd r)
       end).

(** [[(k, v) for k, v in self.iteritems()]] *)
Definition items (fuel : nat) (self : S) : M (option (list (string * pyval))) :=
  py_list_of fuel (iteritems self).

End DictMixin.
End DictMixin.

Definition IDA_SETTINGS_ORGANIZATION : string := "IDAPython".
Definition IDA_SETTINGS_APPLICATION : string := "IDA-Settings".

(** [QtCore.QSettings(scope, organization, application)], in [group] when
    one is given.  The module uses one organization and one application,
    so a scope names one location. *)
Definition get_qsettings (scope : QSettings.location) (group : option string)
  : QSettings.t :=
  let s := QSettings.mk scope None in
  match group with
  | Some g => QSettings.beginGroup s g
  | None => s
  end.

(** The frame of the generators over [allKeys()]: before the first
    [next], and inside the [for] loop with the keys still to yield. *)
Inductive allkeys_frame : Type :=
  | AllKeysStart
  | AllKeysRest (rest : list string).

(** [for k in settings.allKeys(): yield k] *)
Definition yield_allKeys (settings : M QSettings.t) (f : allkeys_frame)
  : M (option string * allkeys_frame) :=
  let* rest :=
    match f with
    | AllKeysStart => let* s := settings in QSettings.allKeys s
    | AllKeysRest rest => ret rest
    end in
  match rest with
  | [] => ret (None, AllKeysRest [])
  | k :: rest' => ret (Some k, AllKeysRest rest')
  end.

Module SystemIDASettings.

Record t : Type := mk { _plugin_name : string }.

Definition __init__ : string -> M t := IDASettingsBase.__init__ mk.

Definition _settings (self : t) : M QSettings.t :=
  ret (get_qsettings QSettings.SystemScope (Some (_plugin_name self))).

Definition get_value (self : t) (key : string) : M pyval :=
  let* s := _settings self in
  let* v := QSettings.value s key in
  if is_None v then raise (KeyError "key not found") else ret v.

Definition set_value (self : t) (key : string) (value : pyval) : M unit :=
  let* s := _settings self in
  QSettings.setValue s key value.

Definition del_value (self : t) (key : string) : M unit :=
  let* s := _settings self in
  QSettings.remove s key.

Definition get_keys (self : t) : generator allkeys_frame :=
  mkGenerator AllKeysStart (yield_allKeys (_settings self)).

End SystemIDASettings.

#[global] Instance SystemIDASettings_provider
  : IDASettingsInterface SystemIDASettings.t := {
  get_value := SystemIDASettings.get_value;
  set_value := SystemIDASettings.set_value;
  del_value := SystemIDASettings.del_value;
  get_keys := SystemIDASettings.get_keys
}.

Module UserIDASettings.

Record t : Type := mk { _plugin_name : string }.

Definition __init__ : string -> M t := IDASettingsBase.__init__ mk.

Definition _settings (self : t) : M QSettings.t :=
  ret (get_qsettings QSettings.UserScope (Some (_plugin_name self))).

Definition get_value (self : t) (key : string) : M pyval :=
  let* s := _settings self in
  let* v := QSettings.value s key in
  if is_None v then raise (KeyError "key not found") else ret v.

Definition set_value (self : t) (key : string) (value : pyval) : M unit :=
  let* s := _settings self in
  QSettings.setValue s key value.

Definition del_value (self : t) (key : string) : M unit :=
  let* s := _settings self in
  QSettings.remove s key.

Definition get_keys (self : t) : generator allkeys_frame :=
  mkGenerator AllKeysStart (yield_allKeys (_settings self)).

End UserIDASettings.

#[global] Instance UserIDASettings_provider
  : IDASettingsInterface UserIDASettings.t := {
  get_value := UserIDASettings.get_value;
  set_value := UserIDASettings.set_value;
  del_value := UserIDASettings.del_value;
  get_keys := UserIDASettings.get_keys
}.

Definition get_current_directory_config_path : M string :=
  let* w := get_world in
  let directory := os_path_dirname (idb_path w) in
  let config_name := ".ida-settings.ini" in
  let config_path := os_path_join directory config_name in
  ret config_path.

Module DirectoryIDASettings.

Record t : Type := mk { _plugin_name : string }.

Definition __init__ : string -> M t := IDASettingsBase.__init__ mk.

Definition _settings (self : t) : M QSettings.t :=
  let* path := get_current_directory_config_path in
  let s := QSettings.mk (QSettings.IniFile path) None in
  ret (QSettings.beginGroup s (_plugin_name self)).

Definition get_value (self : t) (key : string) : M pyval :=
  let* s := _settings self in
  let* v := QSettings.value s key in
  if is_None v then raise (KeyError "key not found") else ret v.

Definition set_value (self : t) (key : string) (value : pyval) : M unit :=
  let* s := _settings self in
  QSettings.setValue s key value.

Definition del_value (self : t) (key : string) : M unit :=
  let* s := _settings self in
  QSettings.remove s key.

Definition get_keys (self : t) : generator allkeys_frame :=
  mkGenerator AllKeysStart (yield_allKeys (_settings self)).

End DirectoryIDASettings.

#[global] Instance DirectoryIDASettings_provider
  : IDASettingsInterface DirectoryIDASettings.t := {
  get_value := DirectoryIDASettings.get_value;
  set_value := DirectoryIDASettings.set_value;
  del_value := DirectoryIDASettings.del_value;
  get_keys := DirectoryIDASettings.get_keys
}.

(** ** The IDB provider *)

(** [get_meta_netnode()]: the netnode that keeps the settings metadata of
    the open IDB. *)
Definition get_meta_netnode : M netnode.t :=
  let node_name :=
    "$ " +:+ IDA_SETTINGS_ORGANIZATION +:+ "." +:+ IDA_SETTINGS_APPLICATION in
  netnode.open node_name.

Definition PLUGIN_NAMES_KEY : string := "plugin_names".

(** [json.loads(v)] and [json.dumps(names)]: the module never imports
    [json], so evaluating the name raises NameError. *)
Definition json_loads (v : pyval) : M (list string) := unbound "json".
Definition json_dumps (names : list string) : M pyval := unbound "json".

(** [hashval] on a string key raises no TypeError, so the [except
    TypeError] clause is not entered. *)
Definition get_netnode_plugin_names : M (list string) :=
  let* n := get_meta_netnode in
  let* v := netnode.hashval n PLUGIN_NAMES_KEY in
  if is_None v then ret [] else json_loads v.

(** [get_current_plugin_names()]: the module defines no function of this
    name, so the call raises NameError. *)
Definition get_current_plugin_names : M (list string) :=
  unbound "get_current_plugin_names".

Definition add_netnode_plugin_name (plugin_name : string) : M unit :=
  let* current_names := get_current_plugin_names in
  let current_names := remove_dups current_names in
  if bool_decide (plugin_name ∈@{list string} current_names) then ret tt
  else
    let current_names := (current_names ++ [plugin_name])%list in
    let* n := get_meta_netnode in
    let* names := json_dumps current_names in
    netnode.hashset n PLUGIN_NAMES_KEY names.

(** The frame of [IDBIDASettings.get_keys]: before the first [next],
    suspended at [yield k], and after the loop has ended. *)
Inductive hashkeys_frame : Type :=
  | HashKeysStart
  | HashKeysAt (k : string)
  | HashKeysEnd.

Module IDBIDASettings.

Record t : Type := mk { _plugin_name : string }.

Definition __init__ : string -> M t := IDASettingsBase.__init__ mk.

Definition _netnode (self : t) : M netnode.t :=
  let node_name :=
    "$ " +:+ IDA_SETTINGS_ORGANIZATION +:+ "." +:+ IDA_SETTINGS_APPLICATION
    +:+ "." +:+ _plugin_name self in
  let* n := netnode.open node_name in
  let* _ := add_netnode_plugin_name (_plugin_name self) in
  ret n.

Definition get_value (self : t) (key : string) : M pyval :=
  let* n := _netnode self in
  let* v := netnode.hashval n key in
  if is_None v then raise (KeyError "key not found") else ret v.

Definition set_value (self : t) (key : string) (value : pyval) : M unit :=
  match value with
  | PyNone => raise (TypeError "value must be a bytes")
  | PyBytes _ =>
      let* n := _netnode self in
      netnode.hashset n key value
  end.

Definition del_value (self : t) (key : string) : M unit :=
  let* n := _netnode self in
  let* _ := netnode.hashdel n key in
  let* n := _netnode self in
  netnode.hashset n key PyNone.

(** [k = hash1st(); while k is a key: yield k; k = hashnxt(k)] *)
Definition yield_hashkeys (self : t) (f : hashkeys_frame)
  : M (option string * hashkeys_frame) :=
  let* k :=
    match f with
    | HashKeysStart => let* n := _netnode self in netnode.hash1st n
    | HashKeysAt k => let* n := _netnode self in netnode.hashnxt n k
    | HashKeysEnd => ret None
    end in
  match k with
  | Some k' => ret (Some k', HashKeysAt k')
  | None => ret (None, HashKeysEnd)
  end.

Definition get_keys (self : t) : generator hashkeys_frame :=
  mkGenerator HashKeysStart (yield_hashkeys self).

End IDBIDASettings.

#[global] Instance IDBIDASettings_provider
  : IDASettingsInterface IDBIDASettings.t := {
  get_value := IDBIDASettings.get_value;
  set_value := IDBIDASettings.set_value;
  del_value := IDBIDASettings.del_value;
  get_keys := IDBIDASettings.get_keys
}.

(** ** The facade *)
Module IDASettings.

Record t : Type := mk { _plugin_name : string }.

Definition __init__ (plugin_name : string) : M t :=
  if negb (validate plugin_name)
  then raise (RuntimeError "invalid plugin name")
  else ret (mk plugin_name).

Definition idb (self : t) : M IDBIDASettings.t :=
  IDBIDASettings.__init__ (_plugin_name self).

Definition directory (self : t) : M DirectoryIDASettings.t :=
  DirectoryIDASettings.__init__ (_plugin_name self).

Definition user (self : t) : M UserIDASettings.t :=
  UserIDASettings.__init__ (_plugin_name self).

Definition system (self : t) : M SystemIDASettings.t :=
  SystemIDASettings.__init__ (_plugin_name self).

Definition get_value (self : t) (key : string) : M pyval :=
  try_except_KeyError
    (let* s := idb self in IDBIDASettings.get_value s key)
    (try_except_KeyError
       (let* s := directory self in DirectoryIDASettings.get_value s key)
       (try_except_KeyError
          (let* s := user self in UserIDASettings.get_value s key)
          (try_except_KeyError
             (let* s := system self in SystemIDASettings.get_value s key)
             (raise (KeyError "key not found"))))).

Definition system_plugin_names (self : t) : M (list string) :=
  QSettings.childGroups (get_qsettings QSettings.SystemScope None).

Definition user_plugin_names (self : t) : M (list string) :=
  QSettings.childGroups (get_qsettings QSettings.UserScope None).

Definition directory_plugin_names (self : t) : M (list string) :=
  let* path := get_current_directory_config_path in
  QSettings.childGroups (QSettings.mk (QSettings.IniFile path) None).

Definition idb_plugin_names (self : t) : M (list string) :=
  get_netnode_plugin_names.

End IDASettings.

(** ** Import and export

    Both functions build their QSettings from [config_path], which is a
    local variable of [get_current_directory_config_path] and not bound
    where they run; their parameter is [path]. *)

(** [for k in other.allKeys(): settings[k] = other.value(k)] *)
Fixpoint import_each {S} `{IDASettingsInterface S} (settings : S)
         (other : QSettings.t) (ks : list string) : M unit :=
  match ks with
  | [] => ret tt
  | k :: rest =>
      let* v := QSettings.value other k in
      let* _ := DictMixin.__setitem__ settings k v in
      import_each settings other rest
  end.

Definition import_settings {S} `{IDASettingsInterface S} (settings : S)
           (path : string) : M unit :=
  let* config_path := unbound "config_path" in
  let other := QSettings.mk (QSettings.IniFile config_path) None in
  let* ks := QSettings.allKeys other in
  import_each settings other ks.

(** [for k, v in settings.iteritems(): other.setValue(k, v)], with a bound
    on the number of items taken: [None] when the loop has not ended. *)
Fixpoint export_each {F} (fuel : nat) (i : iterator (string * pyval) F)
         (other : QSettings.t) : M (option unit) :=
  match fuel with
  | O => ret None
  | S fuel' =>
      let* r := it_next i in
      match fst r with
      | None => ret (Some tt)
      | Some kv =>
          let* _ := QSettings.setValue other (fst kv) (snd kv) in
          export_each fuel' (snd r) other
      end
  end.

Definition export_settings {S} `{IDASettingsInterface S} (fuel : nat)
           (settings : S) (path : string) : M (option unit) :=
  let* config_path := unbound "config_path" in
  let other := QSettings.mk (QSettings.IniFile config_path) None in
  export_each fuel (DictMixin.iteritems settings) other.

(** ** The four scopes

    The facade's four accessors, by scope, and what each scope persists
    for a plugin name and a key. *)
Inductive Scope : Type := System | User | Directory | Document.

#[global] Instance Scope_eq_dec : EqDecision Scope.
Proof. solve_decision. Defined.

Definition store_of (s : Scope) : Type :=
  match s with
  | System => SystemIDASettings.t
  | User => UserIDASettings.t
  | Directory => DirectoryIDASettings.t
  | Document => IDBIDASettings.t
  end.

(** [self.system], [self.user], [self.directory], [self.idb] *)
Definition accessor (s : Scope) : IDASettings.t -> M (store_of s) :=
  match s with
  | System => IDASettings.system
  | User => IDASettings.user
  | Directory => IDASettings.directory
  | Document => IDASettings.idb
  end.

#[global] Instance store_provider (s : Scope) : IDASettingsInterface (store_of s) :=
  match s with
  | System => SystemIDASettings_provider
  | User => UserIDASettings_provider
  | Directory => DirectoryIDASettings_provider
  | Document => IDBIDASettings_provider
  end.

(** [settings.<scope>.get_value(key)] and its siblings. *)
Definition scope_get_value (s : Scope) (self : IDASettings.t) (key : string)
  : M pyval :=
  let* store := accessor s self in get_value store key.

Definition scope_set_value (s : Scope) (self : IDASettings.t) (key : string)
                           (value : pyval) : M unit :=
  let* store := accessor s self in set_value store key value.

Definition scope_del_value (s : Scope) (self : IDASettings.t) (key : string)
  : M unit :=
  let* store := accessor s self in del_value store key.

(** [list(settings.<scope>.get_keys())] *)
Definition scope_keys (fuel : nat) (s : Scope) (self : IDASettings.t)
  : M (option (list string)) :=
  let* store := accessor s self in py_list fuel (get_keys store).

(** [key in settings.<scope>] *)
Definition scope_contains (s : Scope) (self : IDASettings.t) (key : string)
  : M bool :=
  let* store := accessor s self in DictMixin.__contains__ store key.

(** [settings.<scope>.get(key, default)] *)
Definition scope_get (s : Scope) (self : IDASettings.t) (key : string)
                     (default : pyval) : M pyval :=
  let* store := accessor s self in DictMixin.get store key default.

Definition config_path (w : World) : string :=
  os_path_join (os_path_dirname (idb_path w)) ".ida-settings.ini".

(** The full key of [key] in the group of [plugin_name]. *)
Definition group_key (plugin_name key : string) : string :=
  (plugin_name +:+ "/") +:+ key.

Definition plugin_node_name (plugin_name : string) : string :=
  "$ IDAPython.IDA-Settings." +:+ plugin_name.

Definition meta_node_name : string := "$ IDAPython.IDA-Settings".

(** What scope [s] itself persists under [key] for [plugin_name]: [None]
    when the scope has no such key. *)
Definition stored (s : Scope) (plugin_name key : string) (w : World)
  : option pyval :=
  match s with
  | System => system_scope w !! group_key plugin_name key
  | User => user_scope w !! group_key plugin_name key
  | Directory =>
      default ∅ (ini_files w !! config_path w) !! group_key plugin_name key
  | Document =>
      netnode.assoc key (netnode.contents (plugin_node_name plugin_name) w)
  end.

(** Everything a scope persists, for every plugin name. *)
Inductive persisted_data : Type :=
  | NativeData (m : qstore)
  | IniData (files : gmap string qstore)
  | NetnodeData (nodes : gmap string hashvals).

Definition persisted (s : Scope) (w : World) : persisted_data :=
  match s with
  | System => NativeData (system_scope w)
  | User => NativeData (user_scope w)
  | Directory => IniData (ini_files w)
  | Document => NetnodeData (netnodes w)
  end.

(** ** The values of the module's tests *)
Definition PLUGIN_1 : string := "plugin1".
Definition KEY_1 : string := "key_1".
Definition KEY_2 : string := "key_2".
Definition VALUE_1 : pyval := PyBytes "hello".
Definition VALUE_2 : pyval := PyBytes "goodbye".

Definition newline : string := String "010" EmptyString.

(** An IDB with no netnodes, opened from [/home/user/sample.idb], and
    nothing in any QSettings location. *)
Definition empty_world : World :=
  mkWorld ∅ ∅ ∅ "/home/user/sample.idb" ∅.

Definition settings_1 : IDASettings.t := IDASettings.mk PLUGIN_1.

(** After [IDASettings(PLUGIN_1).system.set_value(KEY_1, VALUE_1)]. *)
Definition world_system_key_1 : World :=
  snd (scope_set_value System settings_1 KEY_1 VALUE_1 empty_world).

(** After [IDASettings(PLUGIN_1).directory.set_value(KEY_1, VALUE_1)]. *)
Definition world_directory_key_1 : World :=
  snd (scope_set_value Directory settings_1 KEY_1 VALUE_1 empty_world).

(** The system location holds an explicit [None] under [KEY_1]. *)
Definition world_system_null : World :=
  snd (scope_set_value System settings_1 KEY_1 PyNone empty_world).

(** The store object an accessor returns for a valid plugin name. *)
Definition mk_store (s : Scope) (plugin_name : string) : store_of s :=
  match s with
  | System => SystemIDASettings.mk plugin_name
  | User => UserIDASettings.mk plugin_name
  | Directory => DirectoryIDASettings.mk plugin_name
  | Document => IDBIDASettings.mk plugin_name
  end.

(** The world once the plugin's netnode has been opened (and created,
    when the IDB had none). *)
Definition idb_opened (plugin_name : string) (w : World) : World :=
  snd (netnode.open (plugin_node_name plugin_name) w).

(** The world after a [set_value] and after a [del_value] that found the
    key, by scope.  In the Document scope neither gets past opening the
    netnode. *)
Definition world_after_set (s : Scope) (p key : string) (v : pyval) (w : World)
  : World :=
  match s with
  | System =>
      mkWorld (<[group_key p key := v]> (system_scope w)) (user_scope w)
              (ini_files w) (idb_path w) (netnodes w)
  | User =>
      mkWorld (system_scope w) (<[group_key p key := v]> (user_scope w))
              (ini_files w) (idb_path w) (netnodes w)
  | Directory =>
      mkWorld (system_scope w) (user_scope w)
              (<[config_path w :=
                   <[group_key p key := v]>
                     (default ∅ (ini_files w !! config_path w))]>
                 (ini_files w))
              (idb_path w) (netnodes w)
  | Document => idb_opened p w
  end.

Definition world_after_del (s : Scope) (p key : string) (w : World) : World :=
  match s with
  | System =>
      mkWorld (delete (group_key p key) (system_scope w)) (user_scope w)
              (ini_files w) (idb_path w) (netnodes w)
  | User =>
      mkWorld (system_scope w) (delete (group_key p key) (user_scope w))
              (ini_files w) (idb_path w) (netnodes w)
  | Directory =>
      mkWorld (system_scope w) (user_scope w)
              (<[config_path w :=
                   delete (group_key p key)
                     (default ∅ (ini_files w !! config_path w))]>
                 (ini_files w))
              (idb_path w) (netnodes w)
  | Document => idb_opened p w
  end.

(** [set_value] on each pair of [kvs] in turn, whatever each call
    returns. *)
Definition set_values (s : Scope) (self : IDASettings.t)
           (kvs : list (string * string)) (w : World) : World :=
  foldl (fun w kv => snd (scope_set_value s self (fst kv) (PyBytes (snd kv)) w))
        w kvs.

(** An IDB whose netnode for [PLUGIN_1] holds [KEY_1], and no registry of
    plugin names. *)
Definition world_idb_key_1 : World :=
  mkWorld ∅ ∅ ∅ "/home/user/sample.idb"
          {[ plugin_node_name PLUGIN_1 := [(KEY_1, VALUE_1)] ]}.

(** [settings.<scope>[key]], [settings.<scope>[key] = value] and
    [del settings.<scope>[key]] *)
Definition scope_getitem (s : Scope) (self : IDASettings.t) (key : string)
  : M pyval :=
  let* store := accessor s self in DictMixin.__getitem__ store key.

Definition scope_setitem (s : Scope) (self : IDASettings.t) (key : string)
                         (value : pyval) : M unit :=
  let* store := accessor s self in DictMixin.__setitem__ store key value.


(** [settings.<scope>.values()] and [settings.<scope>.items()] *)
Definition scope_values (fuel : nat) (s : Scope) (self : IDASettings.t)
  : M (option (list pyval)) :=
  let* store := accessor s self in DictMixin.values fuel store.

Definition scope_items (fuel : nat) (s : Scope) (self : IDASettings.t)
  : M (option (list (string * pyval))) :=
  let* store := accessor s self in DictMixin.items fuel store.

(** [settings.system_plugin_names] and its siblings, by scope. *)
Definition scope_plugin_names (s : Scope) (self : IDASettings.t)
  : M (list string) :=
  match s with
  | System => IDASettings.system_plugin_names self
  | User => IDASettings.user_plugin_names self
  | Directory => IDASettings.directory_plugin_names self
  | Document => IDASettings.idb_plugin_names self
  end.

(** The same stores, with another IDB open. *)
Definition with_idb_path (path : string) (w : World) : World :=
  mkWorld (system_scope w) (user_scope w) (ini_files w) path (netnodes w).

Fixpoint has_slash (s : string) : bool :=
  match s with
  | EmptyString => false
  | String c r => is_slash c || has_slash r
  end.

(** What [items()] returns over the keys [l] when [self[k]] is [get k]:
    the pairs in order, or the first exception. *)
Fixpoint items_of (get : string -> result pyval) (l : list string)
  : result (list (string * pyval)) :=
  match l with
  | [] => Ok []
  | k :: rest =>
      match get k with
      | Raise e => Raise e
      | Ok v =>
          match items_of get rest with
          | Ok kvs => Ok ((k, v) :: kvs)
          | Raise e => Raise e
          end
      end
  end.

(** * Properties *)

(** ** Namespace validation *)

Lemma filename_class_newline : filename_class "010" = false.
Proof. reflexivity. Qed.

Lemma FILENAME_RE_match_inv (s m : string) :
  FILENAME_RE_match s = Some m ->
  filename_policy m = true /\ (s = m \/ s = m +:+ newline).
Proof.
  revert m. induction s as [|c r IH]; intros m; simpl; [discriminate|].
  destruct (filename_class c) eqn:Hc; [|discriminate].
  destruct (FILENAME_RE_match r) as [m'|] eqn:Hr.
  - intros [= <-]. destruct (IH m' eq_refl) as [Hp Hs].
    split.
    + simpl. rewrite Hc. destruct m'; [discriminate|exact Hp].
    + destruct Hs as [->| ->]; [left|right]; reflexivity.
  - destruct r as [|c' [|c'' r'']]; simpl; try discriminate.
    + intros [= <-]. simpl. rewrite Hc. split; [reflexivity|now left].
    + destruct (Ascii.eqb_spec c' "010") as [->|]; [|discriminate].
      intros [= <-]. simpl. rewrite Hc. split; [reflexivity|now right].
Qed.

Lemma append_String (c : ascii) (r s : string) :
  String c r +:+ s = String c (r +:+ s).
Proof. reflexivity. Qed.

Lemma append_empty (s : string) : EmptyString +:+ s = s.
Proof. reflexivity. Qed.

Lemma FILENAME_RE_match_policy (m : string) :
  filename_policy m = true ->
  FILENAME_RE_match m = Some m /\ FILENAME_RE_match (m +:+ newline) = Some m.
Proof.
  induction m as [|c r IH]; [discriminate|].
  cbn [filename_policy all_filename_class].
  intros [Hc Hr]%andb_true_iff.
  rewrite append_String.
  destruct r as [|c' r'].
  - rewrite append_empty. cbn. rewrite Hc. split; reflexivity.
  - destruct (IH Hr) as [IH1 IH2].
    cbn [FILENAME_RE_match] in *.
    rewrite Hc, IH1, IH2. split; reflexivity.
Qed.

(** What [validate] accepts: the names the policy describes, and each of
    them followed by one newline. *)
Lemma validate_iff (s : string) :
  validate s = true <->
  exists body, filename_policy body = true /\ (s = body \/ s = body +:+ newline).
Proof.
  unfold validate. split.
  - destruct (FILENAME_RE_match s) as [m|] eqn:Hm; [|discriminate].
    intros _. exists m. now apply FILENAME_RE_match_inv.
  - intros (body & Hp & [->| ->]);
      destruct (FILENAME_RE_match_policy body Hp) as [H1 H2];
      [rewrite H1|rewrite H2]; reflexivity.
Qed.

Lemma validate_policy (s : string) : filename_policy s = true -> validate s = true.
Proof. intros Hp. apply validate_iff. exists s. auto. Qed.

Example validate_My_Plugin : validate "My-Plugin 1.0" = true.
Proof. reflexivity. Qed.

Example validate_empty : validate "" = false.
Proof. reflexivity. Qed.

Example validate_path_separator : validate "my/plugin" = false.
Proof. reflexivity. Qed.

Example validate_control_inside :
  validate ("my" +:+ newline +:+ "plugin") = false.
Proof. reflexivity. Qed.

(** C4 (fails on the code).  A name that ends in a newline, a control
    character outside the allowed set, passes [validate] and constructs a
    facade: the [$] of [FILENAME_RE] also matches just before a final
    newline.  The names of the claim ("My-Plugin 1.0", the empty string,
    "my/plugin") are treated as the claim says. *)
Theorem validate_accepts_trailing_newline :
  let name := "plugin" +:+ newline in
  filename_policy name = false /\
  validate name = true /\
  (forall w, IDASettings.__init__ name w = (Ok (IDASettings.mk name), w)) /\
  validate "My-Plugin 1.0" = true /\
  validate "" = false /\
  validate "my/plugin" = false.
Proof. repeat split. Qed.

(** ** Running the providers *)

Ltac run :=
  cbv [scope_get_value scope_set_value scope_del_value scope_contains scope_get
       accessor store_provider get_value set_value del_value
       SystemIDASettings_provider UserIDASettings_provider
       DirectoryIDASettings_provider IDBIDASettings_provider
       IDASettings.system IDASettings.user IDASettings.directory IDASettings.idb
       SystemIDASettings.__init__ UserIDASettings.__init__
       DirectoryIDASettings.__init__ IDBIDASettings.__init__
       IDASettingsBase.__init__
       SystemIDASettings.get_value SystemIDASettings.set_value
       SystemIDASettings.del_value SystemIDASettings._settings
       SystemIDASettings._plugin_name
       UserIDASettings.get_value UserIDASettings.set_value
       UserIDASettings.del_value UserIDASettings._settings
       UserIDASettings._plugin_name
       DirectoryIDASettings.get_value DirectoryIDASettings.set_value
       DirectoryIDASettings.del_value DirectoryIDASettings._settings
       DirectoryIDASettings._plugin_name
       get_current_directory_config_path get_world
       get_qsettings QSettings.beginGroup QSettings.value QSettings.setValue
       QSettings.remove QSettings.full_key QSettings.prefix QSettings.loc
       QSettings.group QSettings.primary QSettings.fallbacks
       QSettings.find_first QSettings.update_primary
       bind ret raise unbound try_except_KeyError].

(** The three names the module evaluates without binding them. *)
Lemma unbound_names :
  is_bound "get_current_plugin_names" = false /\
  is_bound "json" = false /\
  is_bound "Default" = false.
Proof. repeat split. Qed.

(** [try ... except KeyError] *)
Lemma try_except_Ok {A} (body handler : M A) (w w' : World) (a : A) :
  body w = (Ok a, w') -> try_except_KeyError body handler w = (Ok a, w').
Proof. unfold try_except_KeyError. now intros ->. Qed.

Lemma try_except_caught {A} (body handler : M A) (w w' : World) (msg : string) :
  body w = (Raise (KeyError msg), w') ->
  try_except_KeyError body handler w = handler w'.
Proof. unfold try_except_KeyError. now intros ->. Qed.

Lemma try_except_passed {A} (body handler : M A) (w w' : World) (e : exn) :
  body w = (Raise e, w') -> is_KeyError e = false ->
  try_except_KeyError body handler w = (Raise e, w').
Proof. unfold try_except_KeyError. now intros -> ->. Qed.

(** *** The QSettings providers *)

Lemma system_get_value_eq (self : SystemIDASettings.t) (key : string) (w : World) :
  SystemIDASettings.get_value self key w =
  (match stored System (SystemIDASettings._plugin_name self) key w with
   | Some (PyBytes b) => Ok (PyBytes b)
   | _ => Raise (KeyError "key not found")
   end, w).
Proof.
  destruct self as [p]. run. unfold stored, group_key.
  destruct (system_scope w !! _) as [[|b]|]; reflexivity.
Qed.

Lemma user_get_value_eq (self : UserIDASettings.t) (key : string) (w : World) :
  UserIDASettings.get_value self key w =
  (match stored User (UserIDASettings._plugin_name self) key w with
   | Some (PyBytes b) => Ok (PyBytes b)
   | Some PyNone => Raise (KeyError "key not found")
   | None =>
       match stored System (UserIDASettings._plugin_name self) key w with
       | Some (PyBytes b) => Ok (PyBytes b)
       | _ => Raise (KeyError "key not found")
       end
   end, w).
Proof.
  destruct self as [p]. run. unfold stored, group_key.
  destruct (user_scope w !! _) as [[|b]|]; try reflexivity.
  destruct (system_scope w !! _) as [[|b]|]; reflexivity.
Qed.

Lemma directory_get_value_eq (self : DirectoryIDASettings.t) (key : string)
      (w : World) :
  DirectoryIDASettings.get_value self key w =
  (match stored Directory (DirectoryIDASettings._plugin_name self) key w with
   | Some (PyBytes b) => Ok (PyBytes b)
   | _ => Raise (KeyError "key not found")
   end, w).
Proof.
  destruct self as [p]. run. unfold stored, group_key, config_path.
  destruct (default ∅ _ !! _) as [[|b]|]; reflexivity.
Qed.

Lemma directory_settings_eq (self : DirectoryIDASettings.t) (w : World) :
  DirectoryIDASettings._settings self w =
  (Ok (QSettings.beginGroup
         (QSettings.mk (QSettings.IniFile (config_path w)) None)
         (DirectoryIDASettings._plugin_name self)), w).
Proof. reflexivity. Qed.

(** *** The IDB provider: every access of [_netnode] raises *)

Lemma netnode_raises (self : IDBIDASettings.t) (w : World) :
  IDBIDASettings._netnode self w =
  (Raise (NameError "get_current_plugin_names"),
   idb_opened (IDBIDASettings._plugin_name self) w).
Proof.
  destruct self as [p].
  unfold IDBIDASettings._netnode, add_netnode_plugin_name,
    get_current_plugin_names, unbound, raise, bind, idb_opened.
  cbn [IDBIDASettings._plugin_name].
  change ("$ " +:+ IDA_SETTINGS_ORGANIZATION +:+ "." +:+ IDA_SETTINGS_APPLICATION
          +:+ "." +:+ p) with (plugin_node_name p).
  destruct (netnode.open (plugin_node_name p) w) as [[n|e] w'] eqn:E.
  - reflexivity.
  - unfold netnode.open in E. destruct (netnodes w !! _); discriminate.
Qed.

Lemma idb_get_value_raises (self : IDBIDASettings.t) (key : string) (w : World) :
  IDBIDASettings.get_value self key w =
  (Raise (NameError "get_current_plugin_names"),
   idb_opened (IDBIDASettings._plugin_name self) w).
Proof. unfold IDBIDASettings.get_value, bind. now rewrite netnode_raises. Qed.

Lemma idb_set_value_raises (self : IDBIDASettings.t) (key b : string) (w : World) :
  IDBIDASettings.set_value self key (PyBytes b) w =
  (Raise (NameError "get_current_plugin_names"),
   idb_opened (IDBIDASettings._plugin_name self) w).
Proof. unfold IDBIDASettings.set_value, bind. now rewrite netnode_raises. Qed.

Lemma idb_del_value_raises (self : IDBIDASettings.t) (key : string) (w : World) :
  IDBIDASettings.del_value self key w =
  (Raise (NameError "get_current_plugin_names"),
   idb_opened (IDBIDASettings._plugin_name self) w).
Proof. unfold IDBIDASettings.del_value, bind. now rewrite netnode_raises. Qed.

Lemma idb_get_keys_raises (self : IDBIDASettings.t) (fuel : nat) (w : World) :
  py_list (S fuel) (IDBIDASettings.get_keys self) w =
  (Raise (NameError "get_current_plugin_names"),
   idb_opened (IDBIDASettings._plugin_name self) w).
Proof.
  cbn [py_list]. unfold next, IDBIDASettings.get_keys, bind; cbn [frame resume].
  unfold IDBIDASettings.yield_hashkeys, bind. now rewrite netnode_raises.
Qed.

Lemma idb_opened_frame (p : string) (w : World) :
  system_scope (idb_opened p w) = system_scope w /\
  user_scope (idb_opened p w) = user_scope w /\
  ini_files (idb_opened p w) = ini_files w /\
  idb_path (idb_opened p w) = idb_path w.
Proof.
  unfold idb_opened, netnode.open. destruct (netnodes w !! _); repeat split.
Qed.

(** Opening a netnode changes no node's hash values. *)
Lemma idb_opened_contents (p n : string) (w : World) :
  netnode.contents n (idb_opened p w) = netnode.contents n w.
Proof.
  unfold idb_opened, netnode.open, netnode.contents.
  destruct (netnodes w !! plugin_node_name p) eqn:E; [reflexivity|].
  cbn [snd netnode.with_netnodes netnodes].
  destruct (decide (plugin_node_name p = n)) as [<-|Hne].
  - rewrite lookup_insert_eq. symmetry. exact (f_equal (default []) E).
  - rewrite lookup_insert_ne by exact Hne. reflexivity.
Qed.

(** [idb_plugin_names] never lists a name: with no registry value it
    returns the empty list, with one it stops at [json]. *)
Lemma idb_plugin_names_result (self : IDASettings.t) (w : World) :
  fst (IDASettings.idb_plugin_names self w) = Ok [] \/
  fst (IDASettings.idb_plugin_names self w) = Raise (NameError "json").
Proof.
  unfold IDASettings.idb_plugin_names, get_netnode_plugin_names, bind.
  destruct (get_meta_netnode w) as [[n|e] w1] eqn:E1.
  - destruct (netnode.hashval n PLUGIN_NAMES_KEY w1) as [[v|e] w2] eqn:E2.
    + destruct v; [left|right]; reflexivity.
    + discriminate E2.
  - unfold get_meta_netnode, netnode.open in E1.
    destruct (netnodes w !! _); discriminate.
Qed.

(** *** Through the facade *)

Lemma accessor_Ok (s : Scope) (self : IDASettings.t) (w : World) :
  validate (IDASettings._plugin_name self) = true ->
  accessor s self w = (Ok (mk_store s (IDASettings._plugin_name self)), w).
Proof. intros valid. destruct s; run; now rewrite valid. Qed.

Lemma accessor_invalid (s : Scope) (self : IDASettings.t) (w : World) :
  validate (IDASettings._plugin_name self) = false ->
  accessor s self w = (Raise (RuntimeError "invalid plugin name"), w).
Proof. intros H. destruct s; run; now rewrite H. Qed.

Section ValidFacade.
Variable self : IDASettings.t.
Hypothesis valid : validate (IDASettings._plugin_name self) = true.
Let p := IDASettings._plugin_name self.

Lemma scope_get_value_store (s : Scope) (key : string) (w : World) :
  get_value (mk_store s p) key w = scope_get_value s self key w.
Proof. unfold scope_get_value, bind. now rewrite accessor_Ok. Qed.

Lemma scope_contains_store (s : Scope) (key : string) (w : World) :
  scope_contains s self key w = DictMixin.__contains__ (mk_store s p) key w.
Proof. unfold scope_contains, bind. now rewrite accessor_Ok. Qed.

Lemma scope_get_store (s : Scope) (key : string) (default : pyval) (w : World) :
  scope_get s self key default w = DictMixin.get (mk_store s p) key default w.
Proof. unfold scope_get, bind. now rewrite accessor_Ok. Qed.

Lemma scope_get_value_eq (s : Scope) (key : string) (w : World) :
  scope_get_value s self key w =
  match s with
  | Document => (Raise (NameError "get_current_plugin_names"), idb_opened p w)
  | User =>
      (match stored User p key w with
       | Some (PyBytes b) => Ok (PyBytes b)
       | Some PyNone => Raise (KeyError "key not found")
       | None =>
           match stored System p key w with
           | Some (PyBytes b) => Ok (PyBytes b)
           | _ => Raise (KeyError "key not found")
           end
       end, w)
  | _ =>
      (match stored s p key w with
       | Some (PyBytes b) => Ok (PyBytes b)
       | _ => Raise (KeyError "key not found")
       end, w)
  end.
Proof.
  rewrite <- scope_get_value_store.
  destruct s; cbn [mk_store store_provider get_value
                   SystemIDASettings_provider UserIDASettings_provider
                   DirectoryIDASettings_provider IDBIDASettings_provider].
  - apply system_get_value_eq.
  - apply user_get_value_eq.
  - apply directory_get_value_eq.
  - apply idb_get_value_raises.
Qed.

Lemma scope_set_value_eq (s : Scope) (key b : string) (w : World) :
  scope_set_value s self key (PyBytes b) w =
  (match s with
   | Document => Raise (NameError "get_current_plugin_names")
   | _ => Ok tt
   end, world_after_set s p key (PyBytes b) w).
Proof.
  unfold scope_set_value, bind. rewrite accessor_Ok by exact valid.
  destruct s; try reflexivity. apply idb_set_value_raises.
Qed.

Lemma scope_del_value_eq (s : Scope) (key : string) (w : World) :
  scope_del_value s self key w =
  match s with
  | Document => (Raise (NameError "get_current_plugin_names"), idb_opened p w)
  | _ =>
      (Ok tt,
       match stored s p key w with
       | Some _ => world_after_del s p key w
       | None => w
       end)
  end.
Proof.
  unfold scope_del_value, bind. rewrite accessor_Ok by exact valid.
  destruct s; cbn [mk_store store_provider del_value
                   SystemIDASettings_provider UserIDASettings_provider
                   DirectoryIDASettings_provider IDBIDASettings_provider].
  - run. unfold stored. fold (group_key (IDASettings._plugin_name self) key).
    destruct (system_scope w !! _); reflexivity.
  - run. unfold stored. fold (group_key (IDASettings._plugin_name self) key).
    destruct (user_scope w !! _); reflexivity.
  - run. unfold stored. fold (group_key (IDASettings._plugin_name self) key).
    fold (config_path w).
    destruct (default ∅ _ !! _); reflexivity.
  - apply idb_del_value_raises.
Qed.

(** The facade's [get_value] stops at its first probe. *)
Lemma IDASettings_get_value_raises (key : string) (w : World) :
  IDASettings.get_value self key w =
  (Raise (NameError "get_current_plugin_names"), idb_opened p w).
Proof.
  unfold IDASettings.get_value.
  apply try_except_passed; [|reflexivity].
  exact (scope_get_value_eq Document key w).
Qed.

End ValidFacade.

(** *** What a scope persists after a write *)

Lemma stored_after_set (s : Scope) (p key : string) (v : pyval) (w : World) :
  s <> Document -> stored s p key (world_after_set s p key v w) = Some v.
Proof.
  intros Hs. destruct s; [| | |congruence]; unfold stored, world_after_set.
  - cbn [system_scope]. apply lookup_insert_eq.
  - cbn [user_scope]. apply lookup_insert_eq.
  - unfold config_path. cbn [ini_files idb_path].
    rewrite lookup_insert_eq. cbn [default]. apply lookup_insert_eq.
Qed.

Lemma append_inj_r (p a b : string) : p +:+ a = p +:+ b -> a = b.
Proof.
  induction p as [|c p IH]; [now rewrite !append_empty|].
  rewrite !append_String. intros [= E]. now apply IH.
Qed.

Lemma group_key_inj (p k k' : string) : group_key p k = group_key p k' -> k = k'.
Proof. apply append_inj_r. Qed.

Lemma stored_after_set_other (s : Scope) (p key key' : string) (v : pyval)
      (w : World) :
  s <> Document -> key <> key' ->
  stored s p key' (world_after_set s p key v w) = stored s p key' w.
Proof.
  intros Hs Hne.
  assert (group_key p key <> group_key p key') as Hk
    by (intros E; now apply Hne, (group_key_inj p)).
  destruct s; [| | |congruence]; unfold stored, world_after_set.
  - cbn [system_scope]. now apply lookup_insert_ne.
  - cbn [user_scope]. now apply lookup_insert_ne.
  - unfold config_path. cbn [ini_files idb_path].
    rewrite lookup_insert_eq. cbn [default]. now apply lookup_insert_ne.
Qed.

Lemma stored_after_del (s : Scope) (p key : string) (w : World) :
  s <> Document -> stored s p key (world_after_del s p key w) = None.
Proof.
  intros Hs. destruct s; [| | |congruence]; unfold stored, world_after_del.
  - cbn [system_scope]. apply lookup_delete_eq.
  - cbn [user_scope]. apply lookup_delete_eq.
  - unfold config_path. cbn [ini_files idb_path].
    rewrite lookup_insert_eq. cbn [default]. apply lookup_delete_eq.
Qed.

(** *** [DictMixin] over any provider *)
Section DictMixinFacts.
Context {S : Type} `{IDASettingsInterface S}.

Lemma DictMixin_get_found (self : S) (key : string) (default v : pyval)
      (w w' : World) :
  get_value self key w = (Ok v, w') ->
  DictMixin.get self key default w = (Ok v, w').
Proof. intros E. now apply try_except_Ok. Qed.

Lemma DictMixin_get_not_found (self : S) (key msg : string) (default : pyval)
      (w w' : World) :
  get_value self key w = (Raise (KeyError msg), w') ->
  DictMixin.get self key default w = (Raise (NameError "Default"), w').
Proof.
  intros E. unfold DictMixin.get.
  now rewrite (try_except_caught _ _ w w' msg E).
Qed.

Lemma DictMixin_contains_not_found (self : S) (key msg : string) (w w' : World) :
  get_value self key w = (Raise (KeyError msg), w') ->
  DictMixin.__contains__ self key w = (Ok false, w').
Proof.
  intros E. unfold DictMixin.__contains__.
  apply (try_except_caught _ _ w w' msg).
  unfold bind, DictMixin.__getitem__. now rewrite E.
Qed.

Lemma DictMixin_contains_found (self : S) (key b : string) (w w' : World) :
  get_value self key w = (Ok (PyBytes b), w') ->
  DictMixin.__contains__ self key w = (Ok true, w').
Proof.
  intros E. unfold DictMixin.__contains__.
  apply try_except_Ok.
  unfold bind, DictMixin.__getitem__. now rewrite E.
Qed.

(** Were a provider's [get_value] to return [None], [in] would say
    [False] while [self[key]] returns it; no provider of the module does
    ([get_value] raises KeyError instead). *)
Lemma DictMixin_contains_None (self : S) (key : string) (w w' : World) :
  get_value self key w = (Ok PyNone, w') ->
  DictMixin.__contains__ self key w = (Ok false, w') /\
  DictMixin.__getitem__ self key w = (Ok PyNone, w').
Proof.
  intros E. split; [|exact E]. unfold DictMixin.__contains__.
  apply try_except_Ok.
  unfold bind, DictMixin.__getitem__. now rewrite E.
Qed.

Lemma DictMixin_contains_passed (self : S) (key : string) (e : exn)
      (w w' : World) :
  get_value self key w = (Raise e, w') -> is_KeyError e = false ->
  DictMixin.__contains__ self key w = (Raise e, w').
Proof.
  intros E He. unfold DictMixin.__contains__.
  apply try_except_passed; [|exact He].
  unfold bind, DictMixin.__getitem__. now rewrite E.
Qed.

End DictMixinFacts.

(** *** Enumerating keys *)

Lemma strip_prefix_Some (p s r : string) :
  QSettings.strip_prefix p s = Some r <-> s = p +:+ r.
Proof.
  revert s. induction p as [|a p IH]; intros s; cbn [QSettings.strip_prefix].
  - rewrite append_empty. split; [now intros [= ->]|now intros ->].
  - rewrite append_String. destruct s as [|b s].
    + split; discriminate.
    + destruct (Ascii.eqb_spec a b) as [->|Hne].
      * rewrite IH. split; [now intros ->|now intros [= ->]].
      * split; [discriminate|]. intros [= E _]. congruence.
Qed.

Lemma NoDup_omap_inj {A B} (f : A -> option B) (l : list A) :
  (forall x x' y, f x = Some y -> f x' = Some y -> x = x') ->
  NoDup l -> NoDup (omap f l).
Proof.
  intros Hinj. induction 1 as [|x l Hx Hl IH]; [constructor|].
  cbn [omap list_omap]. destruct (f x) as [y|] eqn:E; [|exact IH].
  constructor; [|exact IH].
  intros (x' & Hx' & E')%list_elem_of_omap.
  now rewrite (Hinj x x' y E E') in Hx.
Qed.

(** [allKeys()] returns, each once, the keys whose full key the handle's
    location holds. *)
Lemma allKeys_spec (s : QSettings.t) (w : World) :
  exists l, QSettings.allKeys s w = (Ok l, w) /\ NoDup l /\
    forall k, k ∈ l <->
      is_Some (QSettings.primary (QSettings.loc s) w !! QSettings.full_key s k).
Proof.
  eexists. split; [reflexivity|]. split.
  - apply NoDup_omap_inj; [|apply NoDup_elements].
    intros x x' y ->%strip_prefix_Some ->%strip_prefix_Some. reflexivity.
  - intros k. rewrite list_elem_of_omap, <- elem_of_dom.
    unfold QSettings.full_key. split.
    + intros (x & Hx%elem_of_elements & ->%strip_prefix_Some). exact Hx.
    + intros Hk. exists (QSettings.prefix s +:+ k). split.
      * now apply elem_of_elements.
      * now apply strip_prefix_Some.
Qed.

(** Draining the generator over [allKeys()] gives the list itself, with
    one step more than it has keys. *)
Lemma py_list_rest (settings : M QSettings.t) (l : list string) (w : World) :
  forall fuel, length l < fuel ->
  py_list fuel (mkGenerator (AllKeysRest l) (yield_allKeys settings)) w
  = (Ok (Some l), w).
Proof.
  induction l as [|k l IH]; intros [|fuel] Hlt; cbn [length] in Hlt; try lia.
  - reflexivity.
  - cbn [py_list]. unfold next at 1. unfold bind at 1 2. cbn.
    unfold bind. rewrite IH by lia. reflexivity.
Qed.

Lemma py_list_allKeys (settings : M QSettings.t) (s : QSettings.t)
      (l : list string) (w : World) :
  settings w = (Ok s, w) -> QSettings.allKeys s w = (Ok l, w) ->
  forall fuel, length l < fuel ->
  py_list fuel (mkGenerator AllKeysStart (yield_allKeys settings)) w
  = (Ok (Some l), w).
Proof.
  intros Es El [|fuel] Hlt; [lia|].
  destruct l as [|k l].
  - cbn [py_list]. unfold next, bind; cbn [frame resume].
    unfold yield_allKeys, bind. rewrite Es, El. reflexivity.
  - cbn [py_list]. unfold next, bind; cbn [frame resume].
    unfold yield_allKeys at 1. unfold bind. rewrite Es, El. cbn.
    pose proof (py_list_rest settings l w fuel) as R. unfold bind in R.
    cbn [length] in Hlt. rewrite R by lia. reflexivity.
Qed.

Section Keys.
Variable self : IDASettings.t.
Hypothesis valid : validate (IDASettings._plugin_name self) = true.
Let p := IDASettings._plugin_name self.

(** [list(get_keys())] on a QSettings scope terminates and gives the
    scope's keys for the plugin name, each once. *)
Lemma scope_keys_spec (s : Scope) (w : World) :
  s <> Document ->
  exists l,
    (forall fuel, length l < fuel -> scope_keys fuel s self w = (Ok (Some l), w)) /\
    NoDup l /\
    (forall k, k ∈ l <-> is_Some (stored s p k w)).
Proof.
  intros Hs. unfold scope_keys, bind. rewrite accessor_Ok by exact valid.
  fold p.
  destruct s; [| | |congruence];
    cbn [mk_store get_keys store_provider SystemIDASettings_provider
         UserIDASettings_provider DirectoryIDASettings_provider].
  - destruct (allKeys_spec (get_qsettings QSettings.SystemScope (Some p)) w)
      as (l & El & Hnd & Hin).
    exists l. split; [|split; [exact Hnd|exact Hin]].
    intros fuel Hlt. now apply (py_list_allKeys _ _ l w eq_refl El).
  - destruct (allKeys_spec (get_qsettings QSettings.UserScope (Some p)) w)
      as (l & El & Hnd & Hin).
    exists l. split; [|split; [exact Hnd|exact Hin]].
    intros fuel Hlt. now apply (py_list_allKeys _ _ l w eq_refl El).
  - destruct (allKeys_spec
                (QSettings.beginGroup
                   (QSettings.mk (QSettings.IniFile (config_path w)) None) p) w)
      as (l & El & Hnd & Hin).
    exists l. split; [|split; [exact Hnd|exact Hin]].
    intros fuel Hlt.
    now apply (py_list_allKeys _ _ l w
                 (directory_settings_eq (DirectoryIDASettings.mk p) w) El).
Qed.

Lemma set_values_cons (s : Scope) (k b : string) (kvs : list (string * string))
      (w : World) :
  set_values s self ((k, b) :: kvs) w
  = set_values s self kvs (world_after_set s p k (PyBytes b) w).
Proof.
  unfold set_values. cbn [foldl fst snd].
  now rewrite scope_set_value_eq by exact valid.
Qed.

Lemma stored_set_values (s : Scope) (kvs : list (string * string)) (w : World)
      (k : string) :
  s <> Document ->
  is_Some (stored s p k (set_values s self kvs w))
  <-> k ∈ kvs.*1 \/ is_Some (stored s p k w).
Proof.
  intros Hs. revert w. induction kvs as [|[k1 b1] kvs IH]; intros w.
  - cbn. rewrite elem_of_nil. tauto.
  - rewrite set_values_cons, IH. cbn [fmap list_fmap fst].
    rewrite elem_of_cons.
    destruct (decide (k1 = k)) as [->|Hne].
    + rewrite stored_after_set by exact Hs. intuition eauto.
    + rewrite stored_after_set_other by assumption. intuition congruence.
Qed.

(** On the three QSettings scopes: with no key stored for the plugin
    name, [get_keys] yields no key. *)
Lemma keys_of_empty_scope (s : Scope) (w : World) (fuel : nat) :
  s <> Document ->
  (forall k, stored s p k w = None) ->
  fst (scope_keys (S fuel) s self w) = Ok (Some []).
Proof.
  intros Hs Hempty.
  destruct (scope_keys_spec s w Hs) as (l & Hrun & _ & Hin).
  destruct l as [|k l].
  - rewrite Hrun by (cbn; lia). reflexivity.
  - exfalso. destruct (proj1 (Hin k)) as [v Hv]; [constructor|].
    rewrite Hempty in Hv. discriminate.
Qed.

(** On the three QSettings scopes: after [set_value] on each of [kvs],
    whose keys are distinct, [get_keys] yields exactly their keys, in the
    backend's order. *)
Lemma keys_after_set_values (s : Scope) (kvs : list (string * string))
      (w : World) :
  s <> Document ->
  (forall k, stored s p k w = None) ->
  NoDup kvs.*1 ->
  exists l,
    (forall fuel, length l < fuel ->
       fst (scope_keys fuel s self (set_values s self kvs w)) = Ok (Some l)) /\
    l ≡ₚ kvs.*1.
Proof.
  intros Hs Hempty Hnd.
  destruct (scope_keys_spec s (set_values s self kvs w) Hs)
    as (l & Hrun & Hndl & Hin).
  exists l. split.
  - intros fuel Hlt. now rewrite Hrun.
  - apply NoDup_Permutation; [exact Hndl|exact Hnd|].
    intros k. rewrite Hin, stored_set_values by exact Hs.
    rewrite (Hempty k). split; [intros [?|[? [=]]]; assumption|tauto].
Qed.

End Keys.

(** ** Resolution through the facade *)

(** C1 (fails on the code).  With [KEY_1] set in the Directory scope
    only, the Directory store's own [get_value] returns the value, but
    [IDASettings.get_value] does not: its first probe, of the IDB scope,
    raises NameError (the unbound [get_current_plugin_names]), which
    [except KeyError] does not catch.  With the key in no scope the facade
    raises the same NameError, not KeyError. *)
Theorem resolve_stops_at_the_idb_probe :
  fst (scope_get_value Directory settings_1 KEY_1 world_directory_key_1)
  = Ok VALUE_1 /\
  fst (IDASettings.get_value settings_1 KEY_1 world_directory_key_1)
  = Raise (NameError "get_current_plugin_names") /\
  fst (IDASettings.get_value settings_1 KEY_1 empty_world)
  = Raise (NameError "get_current_plugin_names").
Proof. repeat split; vm_compute; reflexivity. Qed.

(** ** Round trip *)

(** On the three QSettings scopes [set_value] then [get_value] returns
    the bytes that were set. *)
Lemma set_then_get_value (s : Scope) (self : IDASettings.t) (key b : string)
      (w : World) :
  s <> Document ->
  validate (IDASettings._plugin_name self) = true ->
  fst (scope_set_value s self key (PyBytes b) w) = Ok tt /\
  fst (scope_get_value s self key
         (snd (scope_set_value s self key (PyBytes b) w))) = Ok (PyBytes b).
Proof.
  intros Hs valid. rewrite scope_set_value_eq by exact valid.
  cbn [fst snd]. split; [destruct s; congruence|].
  rewrite scope_get_value_eq by exact valid.
  pose proof (stored_after_set s (IDASettings._plugin_name self) key
                (PyBytes b) w Hs) as E.
  destruct s; [| | |congruence]; cbn [fst]; rewrite E; reflexivity.
Qed.

(** A second [set_value] overwrites. *)
Lemma set_twice_then_get_value (s : Scope) (self : IDASettings.t)
      (key b1 b2 : string) (w : World) :
  s <> Document ->
  validate (IDASettings._plugin_name self) = true ->
  fst (scope_get_value s self key
         (snd (scope_set_value s self key (PyBytes b2)
                 (snd (scope_set_value s self key (PyBytes b1) w)))))
  = Ok (PyBytes b2).
Proof. intros Hs valid. now apply set_then_get_value. Qed.

(** C2 (fails on the code).  In the Document scope [set_value(KEY_1,
    VALUE_1)] raises NameError and stores nothing, and the [get_value]
    that follows raises NameError as well; the round trip holds in the
    other three scopes ([set_then_get_value]). *)
Theorem idb_set_value_does_not_store :
  let r := scope_set_value Document settings_1 KEY_1 VALUE_1 empty_world in
  fst r = Raise (NameError "get_current_plugin_names") /\
  stored Document PLUGIN_1 KEY_1 (snd r) = None /\
  fst (scope_get_value Document settings_1 KEY_1 (snd r))
  = Raise (NameError "get_current_plugin_names").
Proof. repeat split; vm_compute; reflexivity. Qed.

(** ** Absent keys *)

(** C3, as stated, is false: after [system.set_value(KEY_1, VALUE_1)]
    alone the User scope holds no [KEY_1], yet [user.get_value(KEY_1)]
    returns the System scope's value. *)
Lemma user_get_value_reads_system_scope :
  stored User PLUGIN_1 KEY_1 world_system_key_1 = None /\
  fst (scope_get_value User settings_1 KEY_1 world_system_key_1) = Ok VALUE_1.
Proof. split; vm_compute; reflexivity. Qed.

(** C3 (amended).  For a key absent from the System or the Directory
    scope, that store's [get_value] raises KeyError, whatever the other
    scopes hold, and changes nothing.  For a key absent from the User
    scope, [get_value] returns the System scope's value when that is
    bytes, and raises KeyError otherwise. *)
Theorem get_value_of_absent_key (s : Scope) (self : IDASettings.t)
        (key : string) (w : World) :
  s <> Document ->
  validate (IDASettings._plugin_name self) = true ->
  stored s (IDASettings._plugin_name self) key w = None ->
  scope_get_value s self key w =
  (match s with
   | User =>
       match stored System (IDASettings._plugin_name self) key w with
       | Some (PyBytes b) => Ok (PyBytes b)
       | _ => Raise (KeyError "key not found")
       end
   | _ => Raise (KeyError "key not found")
   end, w).
Proof.
  intros Hs valid Habs. rewrite scope_get_value_eq by exact valid.
  destruct s; [| | |congruence]; rewrite Habs; reflexivity.
Qed.

Lemma get_value_of_absent_key_witness :
  User <> Document /\
  validate (IDASettings._plugin_name settings_1) = true /\
  stored User (IDASettings._plugin_name settings_1) KEY_1 world_system_key_1
  = None /\
  scope_get_value User settings_1 KEY_1 world_system_key_1
  = (Ok VALUE_1, world_system_key_1).
Proof.
  split; [discriminate|]. split; [reflexivity|]. split; [reflexivity|].
  apply (get_value_of_absent_key User settings_1 KEY_1 world_system_key_1);
    [discriminate|reflexivity|reflexivity].
Defined.

(** ** Deleting *)

(** C5, as stated, is false: with [KEY_1] in the System scope only,
    [user.del_value(KEY_1)] is followed by a [user.get_value(KEY_1)] that
    returns the System value; and in the Document scope [del_value] of an
    absent key raises NameError. *)
Lemma del_value_then_get_value_counterexample :
  fst (scope_get_value User settings_1 KEY_1
         (snd (scope_del_value User settings_1 KEY_1 world_system_key_1)))
  = Ok VALUE_1 /\
  stored Document PLUGIN_1 KEY_1 empty_world = None /\
  fst (scope_del_value Document settings_1 KEY_1 empty_world)
  = Raise (NameError "get_current_plugin_names").
Proof. repeat split; vm_compute; reflexivity. Qed.

(** C5 (amended).  In the System, User and Directory scopes [del_value]
    returns without raising, changes nothing when the key is absent, and
    leaves the scope without the key.  The [get_value] that follows raises
    KeyError in the System and Directory scopes; in the User scope it
    returns the System scope's value when that is bytes, and raises
    KeyError otherwise. *)
Theorem del_value_then_get_value (s : Scope) (self : IDASettings.t)
        (key : string) (w : World) :
  s <> Document ->
  validate (IDASettings._plugin_name self) = true ->
  let p := IDASettings._plugin_name self in
  let r := scope_del_value s self key w in
  fst r = Ok tt /\
  (stored s p key w = None -> snd r = w) /\
  stored s p key (snd r) = None /\
  fst (scope_get_value s self key (snd r)) =
  match s with
  | User =>
      match stored System p key w with
      | Some (PyBytes b) => Ok (PyBytes b)
      | _ => Raise (KeyError "key not found")
      end
  | _ => Raise (KeyError "key not found")
  end.
Proof.
  intros Hs valid p r. subst r.
  rewrite scope_del_value_eq by exact valid. fold p.
  set (w' := match stored s p key w with
             | Some _ => world_after_del s p key w
             | None => w
             end).
  assert (Hgone : stored s p key w' = None).
  { subst w'. destruct (stored s p key w) eqn:E;
      [now apply stored_after_del|exact E]. }
  assert (Hsys : s = User -> stored System p key w' = stored System p key w).
  { intros ->. subst w'. destruct (stored User p key w); reflexivity. }
  assert (Hsame : stored s p key w = None -> w' = w).
  { subst w'. now intros ->. }
  destruct s; [| | |congruence]; cbn [fst snd];
    (split; [reflexivity|]); (split; [exact Hsame|]); (split; [exact Hgone|]);
    rewrite scope_get_value_eq by exact valid; fold p; cbn [fst];
    rewrite Hgone; try reflexivity.
  now rewrite Hsys.
Qed.

Lemma del_value_then_get_value_witness :
  User <> Document /\
  validate (IDASettings._plugin_name settings_1) = true /\
  fst (scope_del_value User settings_1 KEY_1 world_system_key_1) = Ok tt /\
  snd (scope_del_value User settings_1 KEY_1 world_system_key_1)
  = world_system_key_1 /\
  fst (scope_get_value User settings_1 KEY_1
         (snd (scope_del_value User settings_1 KEY_1 world_system_key_1)))
  = Ok VALUE_1.
Proof.
  split; [discriminate|]. split; [reflexivity|].
  destruct (del_value_then_get_value User settings_1 KEY_1 world_system_key_1)
    as (H1 & H2 & _ & H4); [discriminate|reflexivity|].
  split; [exact H1|]. split; [apply H2; reflexivity|exact H4].
Defined.

(** ** The registry of plugin names *)

(** Every access through the IDB store leaves every netnode's hash
    values, the registry's among them, as they were. *)
Lemma idb_access_leaves_registry (self : IDBIDASettings.t) (w : World) :
  fst (IDBIDASettings._netnode self w)
  = Raise (NameError "get_current_plugin_names") /\
  netnode.contents meta_node_name (snd (IDBIDASettings._netnode self w))
  = netnode.contents meta_node_name w.
Proof.
  rewrite netnode_raises. cbn [fst snd]. split; [reflexivity|].
  apply idb_opened_contents.
Qed.

(** C6 (fails on the code).  On an IDB whose netnode for [PLUGIN_1]
    holds [KEY_1], an access through the IDB store raises NameError
    before the registry is read; the registry stays empty, and
    [idb_plugin_names] then lists no plugin name although [PLUGIN_1] has
    data in the Document scope. *)
Theorem idb_access_registers_nothing :
  let r := scope_get_value Document settings_1 KEY_1 world_idb_key_1 in
  stored Document PLUGIN_1 KEY_1 world_idb_key_1 = Some VALUE_1 /\
  fst r = Raise (NameError "get_current_plugin_names") /\
  netnode.contents meta_node_name (snd r) = [] /\
  fst (IDASettings.idb_plugin_names settings_1 (snd r)) = Ok [].
Proof. repeat split; vm_compute; reflexivity. Qed.

(** ** Keys *)

(** C7 (fails on the code).  In the Document scope [list(get_keys())]
    raises NameError on an IDB without settings, instead of giving the
    empty sequence; [set_value] raises the same, so no key is ever added;
    and the key of an IDB that already holds one is not yielded.  The
    claim holds in the other three scopes ([keys_of_empty_scope],
    [keys_after_set_values]). *)
Theorem idb_get_keys_raises_NameError :
  fst (scope_keys 8 Document settings_1 empty_world)
  = Raise (NameError "get_current_plugin_names") /\
  fst (scope_set_value Document settings_1 KEY_1 VALUE_1 empty_world)
  = Raise (NameError "get_current_plugin_names") /\
  fst (scope_keys 8 Document settings_1 world_idb_key_1)
  = Raise (NameError "get_current_plugin_names").
Proof. repeat split; vm_compute; reflexivity. Qed.

(** ** Stored nulls and membership *)

(** C8, as stated, is false: with an explicit [None] stored under
    [KEY_1] in the System scope, [get_value(KEY_1)] raises the KeyError it
    raises when the key is missing, and [get(KEY_1, default)] ends in the
    same NameError. *)
Lemma get_value_of_stored_null :
  stored System PLUGIN_1 KEY_1 world_system_null = Some PyNone /\
  fst (scope_get_value System settings_1 KEY_1 world_system_null)
  = Raise (KeyError "key not found") /\
  fst (scope_get_value System settings_1 KEY_1 empty_world)
  = Raise (KeyError "key not found") /\
  fst (scope_get System settings_1 KEY_1 VALUE_2 world_system_null)
  = fst (scope_get System settings_1 KEY_1 VALUE_2 empty_world).
Proof. repeat split; vm_compute; reflexivity. Qed.

(** C8 (amended).  For a System, User or Directory store that holds an
    explicit [None] under a key, [key in store] is [False], and
    [get_value(key)] treats the stored [None] as absent too: it raises
    KeyError. *)
Theorem stored_null_is_absent (s : Scope) (self : IDASettings.t) (key : string)
        (w : World) :
  s <> Document ->
  validate (IDASettings._plugin_name self) = true ->
  stored s (IDASettings._plugin_name self) key w = Some PyNone ->
  scope_contains s self key w = (Ok false, w) /\
  scope_get_value s self key w = (Raise (KeyError "key not found"), w).
Proof.
  intros Hs valid Hnull.
  assert (E : scope_get_value s self key w
              = (Raise (KeyError "key not found"), w)).
  { rewrite scope_get_value_eq by exact valid.
    destruct s; [| | |congruence]; rewrite Hnull; reflexivity. }
  split; [|exact E].
  rewrite scope_contains_store by exact valid.
  apply (DictMixin_contains_not_found _ _ "key not found").
  now rewrite scope_get_value_store.
Qed.

Lemma stored_null_is_absent_witness :
  System <> Document /\
  validate (IDASettings._plugin_name settings_1) = true /\
  stored System (IDASettings._plugin_name settings_1) KEY_1 world_system_null
  = Some PyNone /\
  scope_contains System settings_1 KEY_1 world_system_null
  = (Ok false, world_system_null) /\
  scope_get_value System settings_1 KEY_1 world_system_null
  = (Raise (KeyError "key not found"), world_system_null).
Proof.
  split; [discriminate|]. split; [reflexivity|]. split; [reflexivity|].
  apply (stored_null_is_absent System settings_1 KEY_1 world_system_null);
    [discriminate|reflexivity|reflexivity].
Defined.

(** Membership holds exactly when [get_value] succeeds. *)
Lemma contains_iff_get_value (s : Scope) (self : IDASettings.t) (key : string)
      (w : World) :
  s <> Document ->
  validate (IDASettings._plugin_name self) = true ->
  fst (scope_contains s self key w) = Ok true <->
  exists b, fst (scope_get_value s self key w) = Ok (PyBytes b).
Proof.
  intros Hs valid. rewrite scope_contains_store by exact valid.
  destruct (scope_get_value s self key w) as [[[|b]|e] w'] eqn:E;
    rewrite <- scope_get_value_store in E by exact valid.
  - exfalso. rewrite scope_get_value_store, scope_get_value_eq in E
      by exact valid.
    destruct s; [| | |congruence];
      repeat match type of E with
             | context [match ?x with _ => _ end] => destruct x
             end; discriminate.
  - rewrite (DictMixin_contains_found _ _ b _ _ E). cbn. split; eauto.
  - assert (exists msg, e = KeyError msg) as [msg ->].
    { rewrite scope_get_value_store, scope_get_value_eq in E by exact valid.
      destruct s; [| | |congruence];
        repeat match type of E with
               | context [match ?x with _ => _ end] => destruct x
               end; inversion E; eauto. }
    rewrite (DictMixin_contains_not_found _ _ msg _ _ E). cbn.
    split; [discriminate|intros [b Hb]; discriminate].
Qed.

(** ** Writes stay in their scope *)

(** C9.  [set_value] through one scope leaves what each other scope
    persists unchanged, for every plugin name, key and value. *)
Theorem set_value_frame (s s' : Scope) (self : IDASettings.t) (key : string)
        (value : pyval) (w : World) :
  s' <> s ->
  persisted s' (snd (scope_set_value s self key value w)) = persisted s' w.
Proof.
  intros Hne. unfold scope_set_value, bind.
  destruct (validate (IDASettings._plugin_name self)) eqn:valid.
  - rewrite accessor_Ok by exact valid.
    destruct s, s'; try congruence; try reflexivity;
      cbn [set_value store_provider IDBIDASettings_provider mk_store];
      destruct value; try reflexivity;
      rewrite idb_set_value_raises; cbn [snd]; unfold persisted;
      f_equal; apply idb_opened_frame.
  - rewrite accessor_invalid by exact valid. reflexivity.
Qed.

Lemma set_value_frame_witness :
  User <> System /\
  persisted User
    (snd (scope_set_value System settings_1 KEY_1 VALUE_1 empty_world))
  = persisted User empty_world.
Proof.
  split; [discriminate|].
  apply (set_value_frame System User settings_1 KEY_1 VALUE_1 empty_world).
  discriminate.
Defined.

(** ** [get] with a default *)

(** Whenever [get_value] raises KeyError, [get] raises NameError. *)
Lemma scope_get_not_found (s : Scope) (self : IDASettings.t) (key msg : string)
      (default : pyval) (w w' : World) :
  validate (IDASettings._plugin_name self) = true ->
  scope_get_value s self key w = (Raise (KeyError msg), w') ->
  scope_get s self key default w = (Raise (NameError "Default"), w').
Proof.
  intros valid E. rewrite scope_get_store by exact valid.
  apply (DictMixin_get_not_found _ _ msg). now rewrite scope_get_value_store.
Qed.

(** C10 (fails on the code).  For [KEY_1] absent from the System store,
    [get(KEY_1, VALUE_2)] raises NameError instead of returning
    [VALUE_2]: the handler returns the unbound name [Default]. *)
Theorem dict_get_of_absent_key_raises_NameError :
  stored System PLUGIN_1 KEY_1 empty_world = None /\
  fst (scope_get System settings_1 KEY_1 VALUE_2 empty_world)
  = Raise (NameError "Default").
Proof. split; vm_compute; reflexivity. Qed.

(** * Further properties *)

(** ** More on validation *)

Lemma filename_class_not_slash (c : ascii) :
  filename_class c = true -> is_slash c = false.
Proof.
  unfold is_slash. destruct (Ascii.eqb_spec c "/") as [->|]; [|reflexivity].
  discriminate.
Qed.

Lemma all_filename_class_no_slash (s : string) :
  all_filename_class s = true -> has_slash s = false.
Proof.
  induction s as [|c r IH]; [reflexivity|]. cbn.
  intros [Hc Hr]%andb_true_iff.
  now rewrite (filename_class_not_slash c Hc), IH.
Qed.

Lemma has_slash_app (a b : string) :
  has_slash (a +:+ b) = has_slash a || has_slash b.
Proof.
  induction a as [|c a IH]; [reflexivity|].
  rewrite append_String. cbn. rewrite IH. now rewrite orb_assoc.
Qed.

Lemma validate_no_slash (s : string) : validate s = true -> has_slash s = false.
Proof.
  intros (body & Hp & [->| ->])%validate_iff.
  - destruct body; [discriminate|]. now apply all_filename_class_no_slash.
  - rewrite has_slash_app.
    destruct body; [discriminate|].
    now rewrite (all_filename_class_no_slash _ Hp).
Qed.

(** X1.  [validate] accepts a string exactly when it is one or more
    characters of the class, or such a string followed by one newline. *)
Theorem validate_accepts_exactly (s : string) :
  validate s = true <->
  filename_policy s = true \/
  exists body, filename_policy body = true /\ s = body +:+ newline.
Proof.
  rewrite validate_iff. split.
  - intros (body & Hp & [->| ->]); [now left|right; eauto].
  - intros [Hp|(body & Hp & ->)]; [exists s|exists body]; auto.
Qed.

(** ** Keys of different plugins and scopes *)


Lemma stored_after_set_ne (s : Scope) (p p' key key' : string) (v : pyval)
      (w : World) :
  s <> Document -> group_key p key <> group_key p' key' ->
  stored s p' key' (world_after_set s p key v w) = stored s p' key' w.
Proof.
  intros Hs Hk.
  destruct s; [| | |congruence]; unfold stored, world_after_set.
  - cbn [system_scope]. now apply lookup_insert_ne.
  - cbn [user_scope]. now apply lookup_insert_ne.
  - unfold config_path. cbn [ini_files idb_path].
    rewrite lookup_insert_eq. cbn [default]. now apply lookup_insert_ne.
Qed.


Lemma stored_after_set_frame (s s' : Scope) (p p' key key' : string) (v : pyval)
      (w : World) :
  s <> Document -> s' <> s ->
  stored s' p' key' (world_after_set s p key v w) = stored s' p' key' w.
Proof.
  intros Hs Hne. destruct s, s'; try congruence; reflexivity.
Qed.



Lemma scope_set_value_world (s : Scope) (self : IDASettings.t) (key b : string)
      (w : World) :
  s <> Document ->
  validate (IDASettings._plugin_name self) = true ->
  forall s' p' key',
    (s' <> s \/ group_key (IDASettings._plugin_name self) key <> group_key p' key') ->
    stored s' p' key' (snd (scope_set_value s self key (PyBytes b) w))
    = stored s' p' key' w.
Proof.
  intros Hs valid s' p' key' Hother.
  rewrite scope_set_value_eq by exact valid. cbn [snd].
  destruct (decide (s' = s)) as [->|Hne].
  - apply stored_after_set_ne; [exact Hs|tauto].
  - now apply stored_after_set_frame.
Qed.




(** X4.  What a [set_value] in one QSettings scope changes for
    [get_value] of the same key in another: nothing, except that a write
    to the system scope is what the user store returns once the user
    scope has no entry of its own. *)
Theorem write_seen_from_another_scope (s s' : Scope) (self : IDASettings.t)
        (key b : string) (w : World) :
  s <> Document -> s' <> Document -> s' <> s ->
  validate (IDASettings._plugin_name self) = true ->
  fst (scope_get_value s' self key
         (snd (scope_set_value s self key (PyBytes b) w)))
  = match s, s', stored User (IDASettings._plugin_name self) key w with
    | System, User, None => Ok (PyBytes b)
    | _, _, _ => fst (scope_get_value s' self key w)
    end.
Proof.
  intros Hs Hs' Hne valid.
  set (p := IDASettings._plugin_name self).
  assert (Hsame : stored s' p key (snd (scope_set_value s self key (PyBytes b) w))
                  = stored s' p key w)
    by (apply scope_set_value_world; auto).
  assert (Hset : stored s p key (snd (scope_set_value s self key (PyBytes b) w))
                 = Some (PyBytes b)).
  { rewrite scope_set_value_eq by exact valid. now apply stored_after_set. }
  rewrite !scope_get_value_eq by exact valid. fold p.
  destruct s, s'; try congruence; cbn [fst]; rewrite ?Hsame; try reflexivity.
  - rewrite Hset. destruct (stored User p key w) as [[|?]|]; reflexivity.
  - assert (E : stored System p key
                  (snd (scope_set_value Directory self key (PyBytes b) w))
                = stored System p key w)
      by (apply scope_set_value_world; auto; left; discriminate).
    now rewrite E.
Qed.

Lemma write_seen_from_another_scope_witness :
  User <> System /\
  validate (IDASettings._plugin_name settings_1) = true /\
  fst (scope_get_value User settings_1 KEY_1
         (snd (scope_set_value System settings_1 KEY_1 VALUE_1 empty_world)))
  = Ok VALUE_1.
Proof.
  split; [discriminate|]. split; [reflexivity|].
  apply (write_seen_from_another_scope System User settings_1 KEY_1 "hello"
           empty_world);
    [discriminate|discriminate|discriminate|reflexivity].
Defined.

(** ** Items and values *)

Section ItemsOfAllKeys.
Context {A : Type} (mkitem : string -> pyval -> A).
Variable settings : M QSettings.t.
Variable getv : string -> M pyval.
Variable get : string -> result pyval.
Variable w : World.
Hypothesis getv_pure : forall k, getv k w = (get k, w).

Let step : allkeys_frame -> M (option A * allkeys_frame) :=
  fun f =>
    let* r := yield_allKeys settings f in
    match fst r with
    | None => ret (None, snd r)
    | Some k => let* v := getv k in ret (Some (mkitem k v), snd r)
    end.

Let outcome (l : list string) : result (option (list A)) :=
  match items_of get l with
  | Ok kvs => Ok (Some ((fun kv => mkitem (fst kv) (snd kv)) <$> kvs))
  | Raise e => Raise e
  end.

Lemma py_list_of_rest (l : list string) :
  forall fuel, length l < fuel ->
  py_list_of fuel (mkIterator (AllKeysRest l) step) w = (outcome l, w).
Proof.
  induction l as [|k l IH]; intros [|fuel] Hlt; cbn [length] in Hlt; try lia.
  - reflexivity.
  - specialize (IH fuel ltac:(lia)).
    cbn [py_list_of]. unfold it_next, bind in *. cbn [it_frame it_resume] in *.
    unfold step at 1. unfold yield_allKeys, bind, ret. cbn [fst snd].
    rewrite getv_pure. unfold outcome in *. cbn [items_of].
    destruct (get k) as [v|e]; [|reflexivity].
    cbn [fst snd].
    rewrite IH.
    destruct (items_of get l); reflexivity.
Qed.

Lemma py_list_of_allKeys (h : QSettings.t) (l : list string) :
  settings w = (Ok h, w) -> QSettings.allKeys h w = (Ok l, w) ->
  forall fuel, length l < fuel ->
  py_list_of fuel (mkIterator AllKeysStart step) w = (outcome l, w).
Proof.
  intros Es El [|fuel] Hlt; [lia|].
  destruct l as [|k l].
  - cbn [py_list_of]. unfold it_next, bind; cbn [it_frame it_resume].
    unfold step, yield_allKeys, bind. rewrite Es, El. reflexivity.
  - pose proof (py_list_of_rest l fuel) as R. cbn [length] in Hlt.
    specialize (R ltac:(lia)).
    cbn [py_list_of]. unfold it_next, bind in *. cbn [it_frame it_resume] in *.
    unfold step at 1. unfold yield_allKeys, bind, ret. rewrite Es, El.
    cbn [fst snd].
    rewrite getv_pure. unfold outcome in *. cbn [items_of].
    destruct (get k) as [v|e]; [|reflexivity].
    cbn [fst snd]. rewrite R.
    destruct (items_of get l); reflexivity.
Qed.

End ItemsOfAllKeys.

Lemma fmap_pair_id (kvs : list (string * pyval)) :
  (fun kv => (fst kv, snd kv)) <$> kvs = kvs.
Proof. induction kvs as [|[k v] kvs IH]; [reflexivity|]. cbn. now rewrite IH. Qed.

Section ItemsOfScope.
Variable self : IDASettings.t.
Hypothesis valid : validate (IDASettings._plugin_name self) = true.
Let p := IDASettings._plugin_name self.

Lemma scope_get_value_pure (s : Scope) (key : string) (w : World) :
  s <> Document ->
  scope_get_value s self key w = (fst (scope_get_value s self key w), w).
Proof.
  intros Hs. rewrite scope_get_value_eq by exact valid.
  destruct s; [| | |congruence]; reflexivity.
Qed.

Lemma scope_items_spec (s : Scope) (w : World) :
  s <> Document ->
  exists l,
    NoDup l /\
    (forall k, k ∈ l <-> is_Some (stored s p k w)) /\
    forall fuel, length l < fuel ->
      scope_keys fuel s self w = (Ok (Some l), w) /\
      scope_items fuel s self w =
        (match items_of (fun k => fst (scope_get_value s self k w)) l with
         | Ok kvs => Ok (Some kvs)
         | Raise e => Raise e
         end, w) /\
      scope_values fuel s self w =
        (match items_of (fun k => fst (scope_get_value s self k w)) l with
         | Ok kvs => Ok (Some kvs.*2)
         | Raise e => Raise e
         end, w).
Proof.
  intros Hs.
  assert (Hpure : forall k,
            get_value (mk_store s p) k w = (fst (scope_get_value s self k w), w)).
  { intros k. unfold p. rewrite scope_get_value_store by exact valid.
    now apply scope_get_value_pure. }
  unfold scope_keys, scope_items, scope_values, bind.
  rewrite !accessor_Ok by exact valid. fold p.
  unfold DictMixin.items, DictMixin.values, DictMixin.iteritems,
    DictMixin.itervalues, DictMixin.iterkeys, DictMixin.__getitem__.
  destruct s; [| | |congruence];
    cbn [mk_store get_keys get_value store_provider SystemIDASettings_provider
         UserIDASettings_provider DirectoryIDASettings_provider] in *;
    cbn [SystemIDASettings.get_keys UserIDASettings.get_keys
         DirectoryIDASettings.get_keys frame resume].
  - destruct (allKeys_spec (get_qsettings QSettings.SystemScope (Some p)) w)
      as (l & El & Hnd & Hin).
    exists l. split; [exact Hnd|]. split; [exact Hin|].
    intros fuel Hlt. split; [|split].
    + now apply (py_list_allKeys _ _ l w eq_refl El).
    + etrans;
        [exact (py_list_of_allKeys pair _ _ _ w Hpure _ l eq_refl El fuel Hlt)|].
      cbv beta zeta delta [p].
      destruct (items_of _ l); [|reflexivity]. now rewrite fmap_pair_id.
    + etrans;
        [exact (py_list_of_allKeys (fun _ v => v) _ _ _ w Hpure _ l eq_refl El
                  fuel Hlt)|].
      cbv beta zeta delta [p].
      destruct (items_of _ l); reflexivity.
  - destruct (allKeys_spec (get_qsettings QSettings.UserScope (Some p)) w)
      as (l & El & Hnd & Hin).
    exists l. split; [exact Hnd|]. split; [exact Hin|].
    intros fuel Hlt. split; [|split].
    + now apply (py_list_allKeys _ _ l w eq_refl El).
    + etrans;
        [exact (py_list_of_allKeys pair _ _ _ w Hpure _ l eq_refl El fuel Hlt)|].
      cbv beta zeta delta [p].
      destruct (items_of _ l); [|reflexivity]. now rewrite fmap_pair_id.
    + etrans;
        [exact (py_list_of_allKeys (fun _ v => v) _ _ _ w Hpure _ l eq_refl El
                  fuel Hlt)|].
      cbv beta zeta delta [p].
      destruct (items_of _ l); reflexivity.
  - destruct (allKeys_spec
                (QSettings.beginGroup
                   (QSettings.mk (QSettings.IniFile (config_path w)) None) p) w)
      as (l & El & Hnd & Hin).
    pose proof (directory_settings_eq (DirectoryIDASettings.mk p) w) as Es.
    exists l. split; [exact Hnd|]. split; [exact Hin|].
    intros fuel Hlt. split; [|split].
    + now apply (py_list_allKeys _ _ l w Es El).
    + etrans;
        [exact (py_list_of_allKeys pair _ _ _ w Hpure _ l Es El fuel Hlt)|].
      cbv beta zeta delta [p].
      destruct (items_of _ l); [|reflexivity]. now rewrite fmap_pair_id.
    + etrans;
        [exact (py_list_of_allKeys (fun _ v => v) _ _ _ w Hpure _ l Es El
                  fuel Hlt)|].
      cbv beta zeta delta [p].
      destruct (items_of _ l); reflexivity.
Qed.
End ItemsOfScope.


Lemma items_of_Raise (get : string -> result pyval) (l : list string)
      (k : string) (e : exn) :
  k ∈ l -> get k = Raise e ->
  (forall k' e', get k' = Raise e' -> e' = e) ->
  items_of get l = Raise e.
Proof.
  intros Hk Hget Hall. induction l as [|k' l IH]; [inversion Hk|].
  cbn [items_of]. destruct (get k') as [v|e'] eqn:E.
  - apply elem_of_cons in Hk as [->|Hk]; [congruence|].
    now rewrite (IH Hk).
  - now rewrite (Hall k' e' E).
Qed.

Lemma scope_get_value_errors (s : Scope) (self : IDASettings.t) (key : string)
      (w : World) (e : exn) :
  s <> Document ->
  validate (IDASettings._plugin_name self) = true ->
  fst (scope_get_value s self key w) = Raise e -> e = KeyError "key not found".
Proof.
  intros Hs valid. rewrite scope_get_value_eq by exact valid.
  destruct s; [| | |congruence]; cbn [fst];
    repeat match goal with
           | |- context [match ?x with _ => _ end] => destruct x
           end; congruence.
Qed.



(** ** Dictionary syntax *)

Lemma scope_set_value_any (s : Scope) (self : IDASettings.t) (key : string)
      (v : pyval) (w : World) :
  s <> Document ->
  validate (IDASettings._plugin_name self) = true ->
  scope_set_value s self key v w =
  (Ok tt, world_after_set s (IDASettings._plugin_name self) key v w).
Proof.
  intros Hs valid. unfold scope_set_value, bind.
  rewrite accessor_Ok by exact valid.
  destruct s; [| | |congruence]; reflexivity.
Qed.

(** X5.  [store[key] = bytes] on a QSettings store is read back by
    [store[key]], by [key in store] and by [store.get(key, default)];
    [store[key] = None] raises TypeError and writes nothing. *)
Theorem setitem_then_read (s : Scope) (self : IDASettings.t) (key b : string)
        (default : pyval) (w : World) :
  s <> Document ->
  validate (IDASettings._plugin_name self) = true ->
  let r := scope_setitem s self key (PyBytes b) w in
  fst r = Ok tt /\
  fst (scope_getitem s self key (snd r)) = Ok (PyBytes b) /\
  fst (scope_contains s self key (snd r)) = Ok true /\
  fst (scope_get s self key default (snd r)) = Ok (PyBytes b) /\
  scope_setitem s self key PyNone w
  = (Raise (TypeError "value must be a bytes"), w).
Proof.
  intros Hs valid r.
  assert (Er : r = scope_set_value s self key (PyBytes b) w) by reflexivity.
  assert (Eg : scope_get_value s self key (snd r) = (Ok (PyBytes b), snd r)).
  { rewrite scope_get_value_pure by assumption. f_equal.
    rewrite Er. now apply set_then_get_value. }
  rewrite <- scope_get_value_store in Eg by exact valid.
  split; [rewrite Er; now apply set_then_get_value|].
  split; [|split; [|split]].
  - unfold scope_getitem, bind. rewrite accessor_Ok by exact valid.
    unfold DictMixin.__getitem__. now rewrite Eg.
  - rewrite scope_contains_store by exact valid.
    now rewrite (DictMixin_contains_found _ _ b _ _ Eg).
  - rewrite scope_get_store by exact valid.
    now rewrite (DictMixin_get_found _ _ default _ _ _ Eg).
  - unfold scope_setitem, bind. now rewrite accessor_Ok by exact valid.
Qed.

Lemma setitem_then_read_witness :
  Directory <> Document /\
  validate (IDASettings._plugin_name settings_1) = true /\
  fst (scope_contains Directory settings_1 KEY_1
         (snd (scope_setitem Directory settings_1 KEY_1 VALUE_1 empty_world)))
  = Ok true.
Proof.
  split; [discriminate|]. split; [reflexivity|].
  apply (setitem_then_read Directory settings_1 KEY_1 "hello" PyNone empty_world);
    [discriminate|reflexivity].
Defined.

(** X6.  [set_value(key, None)] on a QSettings store is accepted (only
    [__setitem__] checks the type).  The key is then listed by
    [get_keys], while [get_value] raises KeyError for it, and so do
    [values()] and [items()]. *)
Theorem null_is_listed_but_not_read (s : Scope) (self : IDASettings.t)
        (key : string) (w : World) :
  s <> Document ->
  validate (IDASettings._plugin_name self) = true ->
  let r := scope_set_value s self key PyNone w in
  fst r = Ok tt /\
  fst (scope_get_value s self key (snd r)) = Raise (KeyError "key not found") /\
  exists l, key ∈ l /\
    forall fuel, length l < fuel ->
      fst (scope_keys fuel s self (snd r)) = Ok (Some l) /\
      fst (scope_values fuel s self (snd r)) = Raise (KeyError "key not found") /\
      fst (scope_items fuel s self (snd r)) = Raise (KeyError "key not found").
Proof.
  intros Hs valid r. subst r. rewrite scope_set_value_any by assumption.
  cbn [fst snd]. set (p := IDASettings._plugin_name self).
  set (w1 := world_after_set s p key PyNone w).
  assert (Hst : stored s p key w1 = Some PyNone) by now apply stored_after_set.
  assert (Hget : fst (scope_get_value s self key w1)
                 = Raise (KeyError "key not found")).
  { rewrite scope_get_value_eq by exact valid. fold p.
    destruct s; [| | |congruence]; cbn [fst]; now rewrite Hst. }
  split; [reflexivity|]. split; [exact Hget|].
  destruct (scope_items_spec self valid s w1 Hs) as (l & _ & Hin & Hrun).
  exists l. split; [apply Hin; fold p; rewrite Hst; eauto|].
  intros fuel Hlt. destruct (Hrun fuel Hlt) as (R1 & R2 & R3).
  rewrite R1, R2, R3.
  rewrite (items_of_Raise _ l key (KeyError "key not found")).
  - repeat split.
  - apply Hin. fold p. rewrite Hst. eauto.
  - exact Hget.
  - intros k' e' E. now apply (scope_get_value_errors s self k' w1).
Qed.

Lemma null_is_listed_but_not_read_witness :
  System <> Document /\
  validate (IDASettings._plugin_name settings_1) = true /\
  fst (scope_get_value System settings_1 KEY_1
         (snd (scope_set_value System settings_1 KEY_1 PyNone empty_world)))
  = Raise (KeyError "key not found").
Proof.
  split; [discriminate|]. split; [reflexivity|].
  apply (null_is_listed_but_not_read System settings_1 KEY_1 empty_world);
    [discriminate|reflexivity].
Defined.



(** ** Constructing the facade *)

(** X2.  A facade that [IDASettings(plugin_name)] returned was built for
    a valid name and without touching the world, and each of its four
    accessors returns a store of the same plugin name: the accessors'
    own validation never raises. *)
Theorem constructed_facade_has_four_stores (plugin_name : string)
        (self : IDASettings.t) (w w' : World) :
  IDASettings.__init__ plugin_name w = (Ok self, w') ->
  w' = w /\
  IDASettings._plugin_name self = plugin_name /\
  validate plugin_name = true /\
  forall (s : Scope) (w1 : World),
    accessor s self w1 = (Ok (mk_store s plugin_name), w1).
Proof.
  unfold IDASettings.__init__.
  destruct (validate plugin_name) eqn:valid; cbn [negb]; [|discriminate].
  intros [= <- <-]. repeat split. intros s w1. now apply accessor_Ok.
Qed.

Lemma constructed_facade_has_four_stores_witness :
  IDASettings.__init__ PLUGIN_1 empty_world = (Ok settings_1, empty_world) /\
  accessor Document settings_1 world_idb_key_1
  = (Ok (mk_store Document PLUGIN_1), world_idb_key_1).
Proof.
  split; [reflexivity|].
  apply (constructed_facade_has_four_stores PLUGIN_1 settings_1 empty_world
           empty_world eq_refl).
Defined.


(** ** Import and export *)

(** X9.  [import_settings] and [export_settings] raise NameError on
    every call, before they read or write anything: both name
    [config_path], which is not bound there. *)
Theorem import_and_export_raise_NameError {S : Type} `{IDASettingsInterface S}
        (settings : S) (path : string) (fuel : nat) (w : World) :
  is_bound "config_path" = false /\
  import_settings settings path w = (Raise (NameError "config_path"), w) /\
  export_settings fuel settings path w = (Raise (NameError "config_path"), w).
Proof. repeat split. Qed.

(** ** The IDB store and the registry *)

Lemma netnode_open_spec (name : string) (w : World) :
  fst (netnode.open name w) = Ok name /\
  is_Some (netnodes (snd (netnode.open name w)) !! name) /\
  (forall n, netnode.contents n (snd (netnode.open name w))
             = netnode.contents n w) /\
  system_scope (snd (netnode.open name w)) = system_scope w /\
  user_scope (snd (netnode.open name w)) = user_scope w /\
  ini_files (snd (netnode.open name w)) = ini_files w.
Proof.
  unfold netnode.open, netnode.contents.
  destruct (netnodes w !! name) as [h|] eqn:E; cbn [fst snd].
  - repeat split. exists h. exact E.
  - cbn [netnode.with_netnodes netnodes system_scope user_scope ini_files].
    split; [reflexivity|]. split; [rewrite lookup_insert_eq; eauto|].
    split; [|repeat split].
    intros n. destruct (decide (name = n)) as [<-|Hne].
    + rewrite lookup_insert_eq. symmetry. exact (f_equal (default []) E).
    + now rewrite lookup_insert_ne.
Qed.

(** X10.  [idb_plugin_names] returns the empty list when the registry
    has no value and raises NameError ([json]) when it has one; it never
    returns a name.  The call creates the metadata netnode when the IDB
    had none and changes no stored value. *)
Theorem idb_plugin_names_never_lists (self : IDASettings.t) (w : World) :
  let r := IDASettings.idb_plugin_names self w in
  fst r =
    (if is_None (default PyNone
                   (netnode.assoc PLUGIN_NAMES_KEY
                      (netnode.contents meta_node_name w)))
     then Ok [] else Raise (NameError "json")) /\
  is_Some (netnodes (snd r) !! meta_node_name) /\
  (forall n, netnode.contents n (snd r) = netnode.contents n w) /\
  system_scope (snd r) = system_scope w /\
  user_scope (snd r) = user_scope w /\
  ini_files (snd r) = ini_files w.
Proof.
  destruct (netnode_open_spec meta_node_name w) as (H1 & H2 & H3 & H4).
  unfold IDASettings.idb_plugin_names, get_netnode_plugin_names,
    get_meta_netnode, bind.
  change ("$ " +:+ IDA_SETTINGS_ORGANIZATION +:+ "." +:+ IDA_SETTINGS_APPLICATION)
    with meta_node_name.
  destruct (netnode.open meta_node_name w) as [[n|e] w1]; cbn [fst snd] in *;
    [|discriminate].
  injection H1 as ->. unfold netnode.hashval. rewrite (H3 meta_node_name).
  destruct (default PyNone _); cbn [is_None fst snd]; auto.
Qed.

(** X11.  No method of the IDB store returns: [set_value] of [None]
    raises TypeError, every other call NameError.  None of them changes a
    hash value of any netnode or any QSettings location. *)
Theorem idb_store_never_writes (self : IDBIDASettings.t) (key : string)
        (value : pyval) (fuel : nat) (w : World) :
  let unchanged (w1 : World) :=
    (forall n, netnode.contents n w1 = netnode.contents n w) /\
    system_scope w1 = system_scope w /\
    user_scope w1 = user_scope w /\
    ini_files w1 = ini_files w in
  let name_error := NameError "get_current_plugin_names" in
  (fst (IDBIDASettings.get_value self key w) = Raise name_error /\
   unchanged (snd (IDBIDASettings.get_value self key w))) /\
  (fst (IDBIDASettings.set_value self key value w)
   = Raise (if is_None value then TypeError "value must be a bytes"
            else name_error) /\
   unchanged (snd (IDBIDASettings.set_value self key value w))) /\
  (fst (IDBIDASettings.del_value self key w) = Raise name_error /\
   unchanged (snd (IDBIDASettings.del_value self key w))) /\
  (fst (py_list (S fuel) (IDBIDASettings.get_keys self) w) = Raise name_error /\
   unchanged (snd (py_list (S fuel) (IDBIDASettings.get_keys self) w))).
Proof.
  intros unchanged name_error.
  assert (Hopen : unchanged (idb_opened (IDBIDASettings._plugin_name self) w)).
  { split; [intros n; apply idb_opened_contents|].
    destruct (idb_opened_frame (IDBIDASettings._plugin_name self) w)
      as (? & ? & ? & ?). auto. }
  rewrite idb_get_value_raises, idb_del_value_raises, idb_get_keys_raises.
  cbn [fst snd]. repeat split; try apply Hopen.
  - destruct value; [reflexivity|]. now rewrite idb_set_value_raises.
  - destruct value; [reflexivity|]. rewrite idb_set_value_raises. apply Hopen.
  - destruct value; [reflexivity|]. rewrite idb_set_value_raises. apply Hopen.
  - destruct value; [reflexivity|]. rewrite idb_set_value_raises. apply Hopen.
  - destruct value; [reflexivity|]. rewrite idb_set_value_raises. apply Hopen.
Qed.

(** ** Plugin names of a scope *)

Lemma omap_strip_empty (l : list string) :
  omap (QSettings.strip_prefix EmptyString) l = l.
Proof.
  induction l as [|k l IH]; [reflexivity|].
  cbn [omap list_omap QSettings.strip_prefix]. now f_equal.
Qed.

Lemma first_component_Some (fk name : string) :
  QSettings.first_component fk = Some name <->
  has_slash name = false /\ exists k, fk = group_key name k.
Proof.
  unfold group_key. revert name.
  induction fk as [|c r IH]; intros name; cbn [QSettings.first_component].
  - split; [discriminate|]. intros (_ & k & E).
    destruct name; rewrite ?append_String, ?append_empty in E; discriminate.
  - destruct (is_slash c) eqn:Hc.
    + assert (c = "/"%char) as -> by now apply Ascii.eqb_eq.
      split.
      * intros [= <-]. split; [reflexivity|]. now exists r.
      * intros (Hn & k & E). destruct name as [|c' n']; [reflexivity|].
        rewrite !append_String in E. injection E as <- _.
        discriminate Hn.
    + split.
      * intros E. destruct (QSettings.first_component r) as [n|];
          [|discriminate]. injection E as <-.
        destruct (proj1 (IH n) eq_refl) as (Hn & k & ->).
        cbn [has_slash]. rewrite Hc, Hn.
        split; [reflexivity|]. now exists k.
      * intros (Hn & k & E). destruct name as [|c' n'].
        -- rewrite !append_empty in E. injection E as -> _. discriminate Hc.
        -- rewrite !append_String in E. injection E as <- ->.
           cbn [has_slash] in Hn. apply orb_false_iff in Hn as [_ Hn].
           assert (QSettings.first_component ((n' +:+ "/") +:+ k) = Some n') as ->
             by (apply IH; eauto).
           reflexivity.
Qed.

Lemma childGroups_top_spec (l : QSettings.location) (w : World) :
  exists names,
    QSettings.childGroups (QSettings.mk l None) w = (Ok names, w) /\
    NoDup names /\
    forall name, name ∈ names <->
      has_slash name = false /\
      exists k, is_Some (QSettings.primary l w !! group_key name k).
Proof.
  eexists. split; [reflexivity|]. split; [apply NoDup_remove_dups|].
  intros name. unfold QSettings.prefix.
  cbn [QSettings.group QSettings.loc].
  rewrite omap_strip_empty, elem_of_remove_dups, list_elem_of_omap. split.
  - intros (fk & Hfk%elem_of_elements%elem_of_dom & (Hn & k & ->)%first_component_Some).
    eauto.
  - intros (Hn & k & Hk). exists (group_key name k). split.
    + now apply elem_of_elements, elem_of_dom.
    + apply first_component_Some. eauto.
Qed.

Lemma scope_plugin_names_spec (s : Scope) (self : IDASettings.t) (w : World) :
  s <> Document ->
  exists names,
    scope_plugin_names s self w = (Ok names, w) /\
    NoDup names /\
    forall name, name ∈ names <->
      has_slash name = false /\ exists k, is_Some (stored s name k w).
Proof.
  intros Hs. destruct s; [| | |congruence];
    cbn [scope_plugin_names].
  - apply (childGroups_top_spec QSettings.SystemScope w).
  - apply (childGroups_top_spec QSettings.UserScope w).
  - apply (childGroups_top_spec (QSettings.IniFile (config_path w)) w).
Qed.

(** X12.  [system_plugin_names], [user_plugin_names] and
    [directory_plugin_names] return, without duplicates, every valid
    plugin name that has a key in that scope; in the system and directory
    scopes every name returned has one. *)
Theorem plugin_names_list_plugins_with_data (s : Scope) (self : IDASettings.t)
        (w : World) :
  s <> Document ->
  exists names,
    scope_plugin_names s self w = (Ok names, w) /\
    NoDup names /\
    (forall p, validate p = true -> (exists k, is_Some (stored s p k w)) ->
               p ∈ names) /\
    (s <> User ->
     forall name, name ∈ names -> exists k, is_Some (stored s name k w)).
Proof.
  intros Hs.
  destruct (scope_plugin_names_spec s self w Hs) as (names & Hrun & Hnd & Hin).
  exists names. split; [exact Hrun|]. split; [exact Hnd|]. split.
  - intros p Hp Hk. apply Hin. split; [now apply validate_no_slash|exact Hk].
  - intros _ name Hname. now apply Hin.
Qed.

Lemma plugin_names_list_plugins_with_data_witness :
  System <> Document /\
  exists names,
    scope_plugin_names System settings_1 world_system_key_1
    = (Ok names, world_system_key_1) /\
    PLUGIN_1 ∈ names.
Proof.
  split; [discriminate|].
  destruct (plugin_names_list_plugins_with_data System settings_1
              world_system_key_1) as (names & Hrun & _ & Hin & _);
    [discriminate|].
  exists names. split; [exact Hrun|].
  apply Hin; [reflexivity|]. exists KEY_1. vm_compute. eauto.
Defined.

(** ** The configuration file of the directory scope *)

Lemma append_assoc_string (a b c : string) :
  (a +:+ b) +:+ c = a +:+ (b +:+ c).
Proof.
  induction a as [|x a IH]; [reflexivity|].
  rewrite !append_String. now rewrite IH.
Qed.

Lemma upto_last_slash_no_slash (s : string) :
  has_slash s = false -> upto_last_slash s = EmptyString.
Proof.
  induction s as [|c r IH]; [reflexivity|]. cbn [has_slash upto_last_slash].
  intros [Hc Hr]%orb_false_iff. now rewrite (IH Hr), Hc.
Qed.

Lemma upto_last_slash_dir (dir name : string) :
  has_slash name = false ->
  upto_last_slash ((dir +:+ "/") +:+ name) = dir +:+ "/".
Proof.
  intros Hn. induction dir as [|c r IH].
  - rewrite !append_empty, append_String, append_empty.
    cbn [upto_last_slash]. now rewrite (upto_last_slash_no_slash name Hn).
  - rewrite !append_String. cbn [upto_last_slash]. rewrite IH.
    destruct r; reflexivity.
Qed.

Lemma all_slashes_dir (dir : string) :
  dir <> EmptyString -> ends_with_slash dir = false ->
  all_slashes (dir +:+ "/") = false.
Proof.
  induction dir as [|c r IH]; [congruence|]. intros _ He.
  rewrite append_String. cbn [all_slashes].
  destruct r as [|c' r'].
  - cbn [ends_with_slash] in He. now rewrite He.
  - rewrite IH; [apply andb_false_r|discriminate|exact He].
Qed.

Lemma rstrip_slashes_dir (dir : string) :
  dir <> EmptyString -> ends_with_slash dir = false ->
  rstrip_slashes (dir +:+ "/") = dir.
Proof.
  induction dir as [|c r IH]; [congruence|]. intros _ He.
  rewrite append_String. cbn [rstrip_slashes].
  destruct r as [|c' r'].
  - cbn [ends_with_slash] in He. rewrite append_empty.
    cbn [rstrip_slashes]. cbn. now rewrite He.
  - rewrite IH; [reflexivity|discriminate|exact He].
Qed.

Lemma os_path_dirname_dir (dir name : string) :
  dir <> EmptyString -> ends_with_slash dir = false -> has_slash name = false ->
  os_path_dirname ((dir +:+ "/") +:+ name) = dir.
Proof.
  intros Hd He Hn. unfold os_path_dirname.
  rewrite (upto_last_slash_dir dir name Hn), (all_slashes_dir dir Hd He).
  destruct dir as [|c r]; [congruence|].
  rewrite append_String at 1. cbn [String.eqb negb andb].
  now apply rstrip_slashes_dir.
Qed.

Lemma config_path_dir (dir name : string) (w : World) :
  dir <> EmptyString -> ends_with_slash dir = false -> has_slash name = false ->
  idb_path w = (dir +:+ "/") +:+ name ->
  config_path w = (dir +:+ "/") +:+ ".ida-settings.ini".
Proof.
  intros Hd He Hn Hp. unfold config_path.
  rewrite Hp, (os_path_dirname_dir dir name Hd He Hn).
  unfold os_path_join.
  change (is_slash ".") with false. cbv iota.
  destruct dir as [|c r]; [congruence|].
  cbn [String.eqb orb]. rewrite He.
  now rewrite append_assoc_string.
Qed.

(** X13.  When the IDB is [dir/name], the directory scope keeps its
    settings in [dir/.ida-settings.ini], whatever the file's name. *)
Theorem config_path_is_in_the_directory_of_the_idb (dir name : string)
        (w : World) :
  dir <> EmptyString -> ends_with_slash dir = false -> has_slash name = false ->
  idb_path w = (dir +:+ "/") +:+ name ->
  get_current_directory_config_path w
  = (Ok ((dir +:+ "/") +:+ ".ida-settings.ini"), w).
Proof.
  intros Hd He Hn Hp.
  pose proof (config_path_dir dir name w Hd He Hn Hp) as E.
  unfold config_path in E.
  unfold get_current_directory_config_path, get_world, bind, ret.
  now rewrite E.
Qed.

Lemma config_path_is_in_the_directory_of_the_idb_witness :
  "/home/user" <> EmptyString /\
  ends_with_slash "/home/user" = false /\
  has_slash "sample.idb" = false /\
  get_current_directory_config_path empty_world
  = (Ok "/home/user/.ida-settings.ini", empty_world).
Proof.
  split; [discriminate|]. split; [reflexivity|]. split; [reflexivity|].
  apply (config_path_is_in_the_directory_of_the_idb "/home/user" "sample.idb"
           empty_world); [discriminate|reflexivity|reflexivity|reflexivity].
Defined.

(** X14.  When the IDB path has no directory part (or no IDB is open and
    the path is empty), the configuration file is the relative path
    [.ida-settings.ini]. *)
Theorem config_path_without_directory (w : World) :
  has_slash (idb_path w) = false ->
  get_current_directory_config_path w = (Ok ".ida-settings.ini", w).
Proof.
  intros Hp.
  unfold get_current_directory_config_path, get_world, bind, ret,
    os_path_dirname.
  now rewrite (upto_last_slash_no_slash _ Hp).
Qed.

Lemma config_path_without_directory_witness :
  has_slash EmptyString = false /\
  get_current_directory_config_path (with_idb_path EmptyString empty_world)
  = (Ok ".ida-settings.ini", with_idb_path EmptyString empty_world).
Proof.
  split; [reflexivity|].
  apply (config_path_without_directory (with_idb_path EmptyString empty_world)).
  reflexivity.
Defined.

Lemma stored_Directory_with_idb_path (p key path : string) (w : World) :
  stored Directory p key (with_idb_path path w)
  = default ∅ (ini_files w !! config_path (with_idb_path path w)) !! group_key p key.
Proof. reflexivity. Qed.

(** X15.  A value set in the directory scope while one IDB is open is
    read in the directory scope with any other IDB of the same directory
    open; with an IDB whose configuration file is another one, the write
    changes nothing. *)
Theorem directory_scope_is_shared_by_the_directory (self : IDASettings.t)
        (dir name1 name2 key b : string) (w : World) :
  validate (IDASettings._plugin_name self) = true ->
  dir <> EmptyString -> ends_with_slash dir = false ->
  has_slash name1 = false -> has_slash name2 = false ->
  idb_path w = (dir +:+ "/") +:+ name1 ->
  let w1 := snd (scope_set_value Directory self key (PyBytes b) w) in
  fst (scope_get_value Directory self key
         (with_idb_path ((dir +:+ "/") +:+ name2) w1)) = Ok (PyBytes b) /\
  forall path,
    config_path (with_idb_path path w) <> config_path w ->
    fst (scope_get_value Directory self key (with_idb_path path w1))
    = fst (scope_get_value Directory self key (with_idb_path path w)).
Proof.
  intros valid Hd He Hn1 Hn2 Hp w1. subst w1.
  rewrite scope_set_value_eq by exact valid. cbn [snd].
  set (p := IDASettings._plugin_name self).
  split.
  - rewrite scope_get_value_eq by exact valid. fold p. cbn [fst].
    rewrite stored_Directory_with_idb_path.
    rewrite (config_path_dir dir name2
               (with_idb_path ((dir +:+ "/") +:+ name2)
                  (world_after_set Directory p key (PyBytes b) w))
               Hd He Hn2 eq_refl).
    cbn [world_after_set with_idb_path ini_files].
    rewrite (config_path_dir dir name1 w Hd He Hn1 Hp).
    rewrite lookup_insert_eq. cbn [default from_option]. unfold id.
    now rewrite lookup_insert_eq.
  - intros path Hne. rewrite !scope_get_value_eq by exact valid. fold p.
    cbn [fst]. rewrite !stored_Directory_with_idb_path.
    cbn [world_after_set with_idb_path ini_files].
    change (config_path (with_idb_path path
              (mkWorld (system_scope w) (user_scope w)
                 (<[config_path w:=<[group_key p key:=PyBytes b]>
                      (default ∅ (ini_files w !! config_path w))]> (ini_files w))
                 (idb_path w) (netnodes w))))
      with (config_path (with_idb_path path w)).
    rewrite lookup_insert_ne by congruence. reflexivity.
Qed.

Lemma directory_scope_is_shared_by_the_directory_witness :
  validate (IDASettings._plugin_name settings_1) = true /\
  fst (scope_get_value Directory settings_1 KEY_1
         (with_idb_path "/home/user/other.idb" world_directory_key_1))
  = Ok VALUE_1.
Proof.
  split; [reflexivity|].
  apply (directory_scope_is_shared_by_the_directory settings_1 "/home/user"
           "sample.idb" "other.idb" KEY_1 "hello" empty_world);
    [reflexivity|discriminate|reflexivity|reflexivity|reflexivity|reflexivity].
Defined.
